(** * Test Automation Hub: result store, run orchestrator and reporting queries

    A shallow embedding of [web-app.py]: the functions [save_test_result],
    [get_recent_tests], [get_kpis], [run_robot_tests], [delete_old_tests] and
    the module-level daily-trend query, over an explicit model of the SQLite
    table [test_results], of the wall clock and of the child process.

    Conventions.
    - A Python [str] and an SQLite TEXT value are a [string]; each [ascii] of
      it stands for one character.
    - A Python [int] is a [Z].  A Python [float] and an SQLite REAL are
      idealised as an exact rational [Q]: rounding to binary64 is not
      modelled.
    - A nullable column is an [option]; [None] is SQL NULL.
    - A call that raises an exception ends in [Raise e], with [e] the text
      of the exception; [Datetime.sub_days] alone gives [None] for it. *)

From Stdlib Require Import ZArith QArith Bool List String Ascii Lia Permutation
  Sorting.Sorted.
Import ListNotations.

Open Scope string_scope.
Open Scope Z_scope.

(** ** Python library functions used by the program *)

Module Py.

(** [s.rfind(c)] for a one-character [c]: index of the last occurrence,
    [-1] when there is none. *)
Fixpoint rfind_from (c : ascii) (s : string) (i last : Z) : Z :=
  match s with
  | EmptyString => last
  | String a s' => rfind_from c s' (i + 1) (if Ascii.eqb a c then i else last)
  end.

Definition rfind (c : ascii) (s : string) : Z := rfind_from c s 0 (-1).

(** [s[i:]] for [0 <= i]. *)
Definition slice_from (i : Z) (s : string) : string :=
  substring (Z.to_nat i) (String.length s - Z.to_nat i) s.

(** [s[:i]] for [0 <= i]. *)
Definition slice_to (i : Z) (s : string) : string :=
  substring 0 (Z.to_nat i) s.

(** [s[i:j]] for [0 <= i]. *)
Definition slice (i j : Z) (s : string) : string :=
  substring (Z.to_nat i) (Z.to_nat j - Z.to_nat i) s.

(** [posixpath.basename]: [i = p.rfind('/') + 1; return p[i:]]. *)
Definition basename (p : string) : string :=
  let i := rfind "/" p + 1 in
  slice_from i p.

Fixpoint all_dots (s : string) : bool :=
  match s with
  | EmptyString => true
  | String a s' => Ascii.eqb a "." && all_dots s'
  end.

(** First component of [posixpath.splitext]: the extension starts at the
    last dot of the last path component, leading dots of that component do
    not count. *)
Definition splitext_root (p : string) : string :=
  let sepIndex := rfind "/" p in
  let dotIndex := rfind "." p in
  if (sepIndex <? dotIndex) && negb (all_dots (slice (sepIndex + 1) dotIndex p))
  then slice_to dotIndex p
  else p.

Definition startswith_sep (s : string) : bool :=
  match s with
  | String a _ => Ascii.eqb a "/"
  | EmptyString => false
  end.

Fixpoint endswith_sep (s : string) : bool :=
  match s with
  | EmptyString => false
  | String a EmptyString => Ascii.eqb a "/"
  | String _ s' => endswith_sep s'
  end.

(** [posixpath.join(a, b)]. *)
Definition path_join (a b : string) : string :=
  if startswith_sep b then b
  else if (String.length a =? 0)%nat || endswith_sep a then a ++ b
  else a ++ "/" ++ b.


(** [sep.join(ls)]. *)
Definition join (sep : string) (ls : list string) : string :=
  String.concat sep ls.

End Py.

(** ** Naive datetimes of second resolution

    Every [datetime.now()] of the program is formatted by [strftime], at once
    or after a whole number of days is subtracted, so microseconds are never
    observed and are left out. *)

Record datetime : Type := mkdt {
  year : Z; month : Z; day : Z; hour : Z; minute : Z; second : Z
}.

Module Datetime.

Definition is_leap (y : Z) : bool :=
  (y mod 4 =? 0) && (negb (y mod 100 =? 0) || (y mod 400 =? 0)).

Definition days_in_month (y m : Z) : Z :=
  if (m =? 2) && is_leap y then 29
  else nth (Z.to_nat m) [-1; 31; 28; 31; 30; 31; 30; 31; 31; 30; 31; 30; 31] (-1).

Definition DAYS_BEFORE_MONTH : list Z :=
  [-1; 0; 31; 59; 90; 120; 151; 181; 212; 243; 273; 304; 334].

Definition days_before_year (y : Z) : Z :=
  let y' := y - 1 in
  y' * 365 + y' / 4 - y' / 100 + y' / 400.

Definition days_before_month (y m : Z) : Z :=
  nth (Z.to_nat m) DAYS_BEFORE_MONTH (-1)
  + (if (2 <? m) && is_leap y then 1 else 0).

(** [date.toordinal]: 0001-01-01 is day 1. *)
Definition ymd2ord (y m d : Z) : Z :=
  days_before_year y + days_before_month y m + d.

Definition DI400Y : Z := 146097.
Definition DI100Y : Z := 36524.
Definition DI4Y : Z := 1461.
Definition MAXORDINAL : Z := 3652059.

(** [date.fromordinal]. *)
Definition ord2ymd (n0 : Z) : Z * Z * Z :=
  let n := n0 - 1 in
  let n400 := n / DI400Y in
  let n := n mod DI400Y in
  let y := n400 * 400 + 1 in
  let n100 := n / DI100Y in
  let n := n mod DI100Y in
  let n4 := n / DI4Y in
  let n := n mod DI4Y in
  let n1 := n / 365 in
  let n := n mod 365 in
  let y := y + n100 * 100 + n4 * 4 + n1 in
  if (n1 =? 4) || (n100 =? 4) then (y - 1, 12, 31)
  else
    let leapyear := (n1 =? 3) && (negb (n4 =? 24) || (n100 =? 3)) in
    let m := Z.shiftr (n + 50) 5 in
    let preceding :=
      nth (Z.to_nat m) DAYS_BEFORE_MONTH (-1)
      + (if (2 <? m) && leapyear then 1 else 0) in
    if n <? preceding then
      let m' := m - 1 in
      let preceding' :=
        preceding
        - (nth (Z.to_nat m') [-1; 31; 28; 31; 30; 31; 30; 31; 31; 30; 31; 30; 31] (-1)
           + (if (m' =? 2) && leapyear then 1 else 0)) in
      (y, m', n - preceding' + 1)
    else (y, m, n - preceding + 1).

(** The class invariant of [datetime], with the year at four digits: there
    [%Y] is the year itself on every platform. *)
Definition valid (t : datetime) : bool :=
  (1000 <=? year t) && (year t <=? 9999)
  && (1 <=? month t) && (month t <=? 12)
  && (1 <=? day t) && (day t <=? days_in_month (year t) (month t))
  && (0 <=? hour t) && (hour t <=? 23)
  && (0 <=? minute t) && (minute t <=? 59)
  && (0 <=? second t) && (second t <=? 59).

(** [now - timedelta(days=n)] for an integer [n]: the time of day is kept,
    the date moves by ordinal.  [None] is [OverflowError], from [timedelta]
    beyond 999999999 days or from a date outside years 1..9999. *)
Definition sub_days (now : datetime) (n : Z) : option datetime :=
  if 999999999 <? Z.abs n then None
  else
    let o := ymd2ord (year now) (month now) (day now) - n in
    if (0 <? o) && (o <=? MAXORDINAL) then
      let '(y, m, d) := ord2ymd o in
      Some (mkdt y m d (hour now) (minute now) (second now))
    else None.

(** Chronological order: field by field, most significant first. *)
Definition lex (c d : comparison) : comparison :=
  match c with Eq => d | Lt => Lt | Gt => Gt end.

Definition compare (a b : datetime) : comparison :=
  lex (year a ?= year b)
  (lex (month a ?= month b)
  (lex (day a ?= day b)
  (lex (hour a ?= hour b)
  (lex (minute a ?= minute b) (second a ?= second b))))).

Definition ltb (a b : datetime) : bool :=
  match compare a b with Lt => true | _ => false end.

Definition leb (a b : datetime) : bool :=
  match compare a b with Gt => false | _ => true end.

(** Decimal digit [d] (0..9) as a character. *)
Definition digit (d : Z) : ascii := ascii_of_N (48 + Z.to_N d).

(** [n] in [w] decimal digits, zero filled: [%02d], [%04d] for a field in
    range. *)
Fixpoint pad (w : nat) (n : Z) : string :=
  match w with
  | O => EmptyString
  | S w' => String (digit (n / 10 ^ Z.of_nat w')) (pad w' (n mod 10 ^ Z.of_nat w'))
  end.

(** [%Y] as the C library writes it: the year in decimal without leading
    zeros, so with fewer than four digits before year 1000. *)
Definition year_text (y : Z) : string :=
  if y <? 10 then pad 1 y
  else if y <? 100 then pad 2 y
  else if y <? 1000 then pad 3 y
  else pad 4 y.

(** [strftime("%Y-%m-%d")]; from year 1000 on also what SQLite's [date()]
    gives. *)
Definition strftime_date (t : datetime) : string :=
  year_text (year t) ++ "-" ++ pad 2 (month t) ++ "-" ++ pad 2 (day t).

(** [strftime("%Y-%m-%d %H:%M:%S")]. *)
Definition strftime (t : datetime) : string :=
  strftime_date t ++ " "
  ++ pad 2 (hour t) ++ ":" ++ pad 2 (minute t) ++ ":" ++ pad 2 (second t).

(** [strftime("%Y-%m-%d_%H-%M-%S")]. *)
Definition strftime_file (t : datetime) : string :=
  strftime_date t ++ "_"
  ++ pad 2 (hour t) ++ "-" ++ pad 2 (minute t) ++ "-" ++ pad 2 (second t).

End Datetime.

(** ** The table [test_results] and the SQL the program runs on it *)

(** One row, in the column order of the schema.  Every column is nullable:
    the schema has no NOT NULL. *)
Record row : Type := mkrow {
  id : Z;
  test_name : option string;
  execution_date : option string;
  duration : option Q;
  status : option string
}.

Module SQLite.

(** Truth values of SQL: [None] is NULL (unknown). *)
Definition or3 (a b : option bool) : option bool :=
  match a, b with
  | Some true, _ | _, Some true => Some true
  | Some false, Some false => Some false
  | _, _ => None
  end.

(** A WHERE clause keeps a row when its condition is true, not when it is
    false or NULL. *)
Definition holds (c : option bool) : bool :=
  match c with Some true => true | _ => false end.

(** Comparison of two TEXT values under the BINARY collation. *)
Definition ge (x y : option string) : option bool :=
  match x, y with
  | Some a, Some b => Some (String.leb b a)
  | _, _ => None
  end.

Definition lt (x y : option string) : option bool :=
  match x, y with
  | Some a, Some b => Some (String.ltb a b)
  | _, _ => None
  end.

Definition eq (x y : option string) : option bool :=
  match x, y with
  | Some a, Some b => Some (String.eqb a b)
  | _, _ => None
  end.

(** Lower case of an ASCII letter, any other character unchanged. *)
Definition lower (c : ascii) : ascii :=
  let n := N_of_ascii c in
  if ((65 <=? n) && (n <=? 90))%N then ascii_of_N (n + 32) else c.

Definition char_eq_nocase (a b : ascii) : bool :=
  Ascii.eqb (lower a) (lower b).

(** The LIKE matcher with its default settings: [%] matches any run of
    characters, [_] matches any one character, any other character matches
    itself up to the case of ASCII letters, and there is no escape
    character. *)
Fixpoint like_match (p s : string) {struct p} : bool :=
  match p with
  | EmptyString => match s with EmptyString => true | _ => false end
  | String c p' =>
      if Ascii.eqb c "%" then
        (fix star (s : string) : bool :=
           like_match p' s
           || match s with
              | EmptyString => false
              | String _ s' => star s'
              end) s
      else
        match s with
        | EmptyString => false
        | String a s' =>
            (Ascii.eqb c "_" || char_eq_nocase c a) && like_match p' s'
        end
  end.

(** A text with its ASCII letters in lower case. *)
Fixpoint fold_case (s : string) : string :=
  match s with
  | EmptyString => EmptyString
  | String c s' => String (lower c) (fold_case s')
  end.


(** [x LIKE pattern]. *)
Definition like (x pattern : option string) : option bool :=
  match x, pattern with
  | Some s, Some p => Some (like_match p s)
  | _, _ => None
  end.

(** Sort order of values: NULL before every text, texts by BINARY. *)
Definition compare_value (x y : option string) : comparison :=
  match x, y with
  | None, None => Eq
  | None, Some _ => Lt
  | Some _, None => Gt
  | Some a, Some b => String.compare a b
  end.

Definition value_ltb (x y : option string) : bool :=
  match compare_value x y with Lt => true | _ => false end.

Section OrderBy.
Context {A : Type} (key : A -> option string).

Fixpoint insert_desc (x : A) (l : list A) : list A :=
  match l with
  | [] => [x]
  | y :: l' =>
      if value_ltb (key x) (key y) then y :: insert_desc x l' else x :: l
  end.

(** [ORDER BY key DESC].  SQLite leaves the order of rows with equal keys
    open; here they keep the order of the table. *)
Definition order_by_desc (l : list A) : list A :=
  fold_right insert_desc [] l.
End OrderBy.

(** A Python [int] that [sqlite3] binds as an INTEGER, a signed 64-bit
    number; binding any other raises [OverflowError]. *)
Definition int64 (n : Z) : bool :=
  (- 2 ^ 63 <=? n) && (n <? 2 ^ 63).

(** Bytes of a text in UTF-8, for characters below 256. *)
Fixpoint utf8_length (s : string) : Z :=
  match s with
  | EmptyString => 0
  | String c s' => (if (N_of_ascii c <? 128)%N then 1 else 2) + utf8_length s'
  end.

Definition MAX_LIKE_PATTERN_LENGTH : Z := 50000.

(** A pattern that LIKE takes; on a longer one the query fails with
    [LIKE or GLOB pattern too complex] as soon as it reads a row. *)
Definition like_pattern_ok (p : string) : bool :=
  utf8_length p <=? MAX_LIKE_PATTERN_LENGTH.

(** [LIMIT n]: a negative [n] is no limit. *)
Definition limit {A : Type} (n : Z) (l : list A) : list A :=
  if n <? 0 then l else firstn (Z.to_nat n) l.

(** The distinct values of a list in ascending order: the groups of a
    [GROUP BY key ORDER BY key]. *)
Fixpoint insert_group (k : option string) (l : list (option string))
  : list (option string) :=
  match l with
  | [] => [k]
  | k' :: l' =>
      match compare_value k k' with
      | Lt => k :: l
      | Eq => l
      | Gt => k' :: insert_group k l'
      end
  end.

Definition groups (keys : list (option string)) : list (option string) :=
  fold_right insert_group [] keys.

Definition value_eqb (x y : option string) : bool :=
  match compare_value x y with Eq => true | _ => false end.

(** [SUM(CASE WHEN c THEN 1 ELSE 0 END)] over the rows of one group. *)
Definition sum_case {A : Type} (c : A -> option bool) (l : list A) : Z :=
  fold_right (fun r acc => (if holds (c r) then 1 else 0) + acc) 0 l.

(** SQLite's [datetime(x)] and [date(x)].  They accept many time formats
    and are left open here; [stamp_dates] says what is known of them. *)
Class DateFunctions : Type := {
  datetime_fn : option string -> option string;
  date_fn : option string -> option string
}.

(** On a text that is [strftime("%Y-%m-%d %H:%M:%S")] of a valid datetime,
    the only texts the program stores, [datetime] is the text itself and
    [date] is its date part. *)
Definition stamp_dates (df : DateFunctions) : Prop :=
  forall t, Datetime.valid t = true ->
    datetime_fn (Some (Datetime.strftime t)) = Some (Datetime.strftime t)
    /\ date_fn (Some (Datetime.strftime t)) = Some (Datetime.strftime_date t).

End SQLite.

(** ** The world the program runs in *)

(** What running the child process does: it ends with its output lines and
    exit code, or launching it or reading from it raises an exception with
    the given text. *)
Inductive outcome : Type :=
| Exited (output_lines : list string) (returncode : Z)
| Faulted (e : string).

(** The outside of the program: what the [n]-th interaction returns when it
    reads the clock, and what it returns when it runs a command. *)
Class Env : Type := {
  clock : nat -> datetime;
  robot : nat -> list string -> outcome
}.

(** [datetime.now()] is a valid datetime of a four-digit year. *)
Definition clock_valid (env : Env) : Prop :=
  forall n, Datetime.valid (clock n) = true.

(** The table, the largest id ever given out (AUTOINCREMENT), and the
    number of interactions with the outside so far.  The storage itself is
    taken to be available: [sqlite3] raises nothing. *)
Record world : Type := mkworld {
  rows : list row;
  seq : Z;
  tick : nat
}.

(** Result of a call: a value, or an exception with its text. *)
Inductive res (A : Type) : Type :=
| Ret (a : A)
| Raise (e : string).
Arguments Ret {A} a.
Arguments Raise {A} e.

Definition M (A : Type) : Type := world -> res A * world.

Definition ret {A : Type} (a : A) : M A := fun w => (Ret a, w).

Definition raise {A : Type} (e : string) : M A := fun w => (Raise e, w).

Definition bind {A B : Type} (m : M A) (k : A -> M B) : M B :=
  fun w =>
    match m w with
    | (Ret a, w') => k a w'
    | (Raise e, w') => (Raise e, w')
    end.

(** [try: body except Exception as e: handler(e)].  What the body did to
    the world before it raised stays done. *)
Definition try_except {A : Type} (body : M A) (handler : string -> M A) : M A :=
  fun w =>
    match body w with
    | (Ret a, w') => (Ret a, w')
    | (Raise e, w') => handler e w'
    end.

Notation "x <- m ;; k" := (bind m (fun x => k))
  (at level 61, m at next level, right associativity).
Notation "m ;;; k" := (bind m (fun _ => k))
  (at level 61, right associativity).

Definition get_rows : M (list row) := fun w => (Ret (rows w), w).

Definition set_rows (l : list row) : M unit :=
  fun w => (Ret tt, mkworld l (seq w) (tick w)).

Definition LOG_DIR : string := "logs".

Definition overflow_error : string := "OverflowError".

Section Program.
Context {env : Env} {df : SQLite.DateFunctions}.

(** [datetime.now()]. *)
Definition now : M datetime :=
  fun w => (Ret (clock (tick w)), mkworld (rows w) (seq w) (S (tick w))).

(** [datetime.now() - timedelta(days=days)]. *)
Definition days_ago (days : Z) : M datetime :=
  t <- now ;;
  match Datetime.sub_days t days with
  | Some t' => ret t'
  | None => raise overflow_error
  end.

(** [subprocess.Popen(cmd, ...)], reading its output to the end, and
    [proc.wait()]. *)
Definition popen (cmd : list string) : M (list string * Z) :=
  fun w =>
    let w' := mkworld (rows w) (seq w) (S (tick w)) in
    match robot (tick w) cmd with
    | Exited output_lines returncode => (Ret (output_lines, returncode), w')
    | Faulted e => (Raise e, w')
    end.

(** [INSERT INTO test_results (test_name, execution_date, duration, status)
    VALUES (?, ?, ?, ?)]. *)
Definition insert (name date : string) (dur : Q) (st : string) : M unit :=
  fun w =>
    let i := seq w + 1 in
    (Ret tt,
     mkworld (rows w ++ [mkrow i (Some name) (Some date) (Some dur) (Some st)])
             i (tick w)).

Definition save_test_result (name : string) (dur : Q) (st : string) : M unit :=
  t <- now ;;
  insert name (Datetime.strftime t) dur st.

(** The WHERE clause of [get_recent_tests] for a given [search]. *)
Definition search_where (search : string) (r : row) : option bool :=
  let p := Some ("%" ++ search ++ "%") in
  SQLite.or3 (SQLite.like (test_name r) p) (SQLite.like (status r) p).

(** [get_recent_tests(limit=50, search=None)]; an argument left out is
    [None] for [limit].  [if search:] is false for [None] and for the
    empty string.  This is the query on a limit that is [SQLite.int64] and a
    pattern that is [SQLite.like_pattern_ok]; what the statements below say
    of other arguments is said of this query, not of the exceptions that
    [sqlite3] raises for them. *)
Definition get_recent_tests (limit : option Z) (search : option string)
  : M (list row) :=
  let limit := match limit with Some n => n | None => 50 end in
  table <- get_rows ;;
  let selected :=
    match search with
    | None | Some EmptyString => table
    | Some s => filter (fun r => SQLite.holds (search_where s r)) table
    end in
  ret (SQLite.limit limit
         (SQLite.order_by_desc
            (fun r => SQLite.datetime_fn (execution_date r)) selected)).

Fixpoint Qsum (l : list Q) : Q :=
  match l with
  | [] => 0%Q
  | x :: l' => (x + Qsum l')%Q
  end.

(** [statistics.mean]: it raises on no data. *)
Definition mean (l : list Q) : M Q :=
  match l with
  | [] => raise "StatisticsError: mean requires at least one data point"
  | _ => ret (Qsum l / inject_Z (Z.of_nat (List.length l)))%Q
  end.

(** [a / b] of two [int]: it raises on a zero divisor. *)
Definition truediv (a b : Z) : M Q :=
  if b =? 0 then raise "ZeroDivisionError: division by zero"
  else ret (inject_Z a / inject_Z b)%Q.

Fixpoint non_null (l : list (option Q)) : list Q :=
  match l with
  | [] => []
  | Some d :: l' => d :: non_null l'
  | None :: l' => non_null l'
  end.

Definition py_str_eq (s : option string) (lit : string) : bool :=
  match s with Some a => String.eqb a lit | None => false end.

(** [get_kpis(days=7)]. *)
Definition get_kpis (days : option Z) : M (Z * Q * Q) :=
  let days := match days with Some n => n | None => 7 end in
  since <- days_ago days ;;
  let since_dt := Datetime.strftime since in
  table <- get_rows ;;
  let selected :=
    filter (fun r => SQLite.holds (SQLite.ge (execution_date r) (Some since_dt)))
           table in
  let durations := non_null (map duration selected) in
  avg <- match durations with [] => ret 0%Q | _ => mean durations end ;;
  let total := Z.of_nat (List.length selected) in
  let successes :=
    Z.of_nat (List.length (filter (fun r => py_str_eq (status r) "Pass") selected)) in
  rate <- (if total =? 0 then ret 0%Q
           else q <- truediv successes total ;; ret (q * 100)%Q) ;;
  ret (total, rate, avg).

Definition log_path (name : string) (t : datetime) : string :=
  Py.path_join LOG_DIR
    (Py.splitext_root name ++ "_" ++ Datetime.strftime_file t ++ ".html").

Definition robot_cmd (browser log_file file_path : string) : list string :=
  ["robot"; "--variable"; "BROWSER:" ++ browser; "--log"; log_file; file_path].

(** One turn of the loop of [run_robot_tests]. *)
Definition run_robot_test (browser file_path : string)
  : M (string * string * string) :=
  let name := Py.basename file_path in
  t <- now ;;
  let log_file := log_path name t in
  try_except
    (let cmd := robot_cmd browser log_file file_path in
     p <- popen cmd ;;
     let '(output_lines, returncode) := p in
     let dur := inject_Z (Z.of_nat (List.length output_lines)) in
     let st := if returncode =? 0 then "Pass" else "Fail" in
     save_test_result name dur st ;;;
     ret (name, st, Py.join (String "010" "") output_lines))
    (fun e =>
       save_test_result name 0%Q "Fail" ;;;
       ret (name, "Fail", e)).

Fixpoint run_loop (browser : string) (file_paths : list string)
  (results : list (string * string * string))
  : M (list (string * string * string)) :=
  match file_paths with
  | [] => ret results
  | file_path :: rest =>
      r <- run_robot_test browser file_path ;;
      run_loop browser rest (results ++ [r])
  end.

(** [run_robot_tests(file_paths, browser="chrome")]. *)
Definition run_robot_tests (file_paths : list string) (browser : option string)
  : M (list (string * string * string)) :=
  let browser := match browser with Some b => b | None => "chrome" end in
  run_loop browser file_paths [].

(** [delete_old_tests(days=10)]. *)
Definition delete_old_tests (days : option Z) : M unit :=
  let days := match days with Some n => n | None => 10 end in
  t <- days_ago days ;;
  let threshold := Datetime.strftime t in
  table <- get_rows ;;
  set_rows
    (filter (fun r => negb (SQLite.holds (SQLite.lt (execution_date r) (Some threshold))))
            table).

(** The daily-trend query of the page. *)
Definition daily_trend : M (list (option string * Z * Z)) :=
  table <- get_rows ;;
  let d := fun r => SQLite.date_fn (execution_date r) in
  ret (map
         (fun k =>
            let g := filter (fun r => SQLite.value_eqb (d r) k) table in
            (k,
             SQLite.sum_case (fun r => SQLite.eq (status r) (Some "Pass")) g,
             SQLite.sum_case (fun r => SQLite.eq (status r) (Some "Fail")) g))
         (SQLite.groups (map d table))).

End Program.

(** ** Vocabulary of the statements *)

(** Row [r] was stored at time [t]: its date is what [save_test_result]
    writes at [t]. *)
Definition stamped (r : row) (t : datetime) : Prop :=
  Datetime.valid t = true /\ execution_date r = Some (Datetime.strftime t).

(** Every row of the table was written by [save_test_result]. *)
Definition table_wf (l : list row) : Prop :=
  Forall (fun r => exists t, stamped r t) l.

(** The process that a turn of the loop of [run_robot_tests] runs for
    [file_path] when the turn starts at interaction [n], and how it ends. *)
Definition launched {env : Env} (browser file_path : string) (n : nat) : outcome :=
  robot (S n)
    (robot_cmd browser (log_path (Py.basename file_path) (clock n)) file_path).

(** The row and the triple that one turn of the loop leaves, from how the
    process ended. *)
Definition turn_row {env : Env} (browser file_path : string) (sq : Z) (n : nat)
  : row :=
  let name := Py.basename file_path in
  let date := Datetime.strftime (clock (S (S n))) in
  match launched browser file_path n with
  | Exited output_lines returncode =>
      mkrow (sq + 1) (Some name) (Some date)
        (Some (inject_Z (Z.of_nat (List.length output_lines))))
        (Some (if returncode =? 0 then "Pass" else "Fail"))
  | Faulted e => mkrow (sq + 1) (Some name) (Some date) (Some 0%Q) (Some "Fail")
  end.

Definition turn_result {env : Env} (browser file_path : string) (n : nat)
  : string * string * string :=
  let name := Py.basename file_path in
  match launched browser file_path n with
  | Exited output_lines returncode =>
      (name, if returncode =? 0 then "Pass" else "Fail",
       Py.join (String "010" "") output_lines)
  | Faulted e => (name, "Fail", e)
  end.



(** Some part of the text of the column matches [search] read as a LIKE
    pattern. *)
Definition part_matches (search : string) (col : option string) : Prop :=
  exists a b c, col = Some (a ++ b ++ c) /\ SQLite.like_match search b = true.

(** Day [r] (from 0) of the 400-year cycle of the calendar falls on a date
    that exists, in years 1..400, and before year 400 when it is not among
    the last 366 days. *)
Definition cycle_day_ok (r : Z) : bool :=
  let '(y, m, d) := Datetime.ord2ymd (r + 1) in
  (1 <=? y) && (y <=? 400) && (1 <=? m) && (m <=? 12)
  && (1 <=? d) && (d <=? Datetime.days_in_month y m)
  && (negb (r <=? 145730) || (y <=? 399)).

Fixpoint all_from (f : Z -> bool) (start : Z) (n : nat) : bool :=
  match n with
  | O => true
  | S n' => f start && all_from f (start + 1) n'
  end.

(** Two datetimes of the same calendar date. *)
Definition same_date (a b : datetime) : bool :=
  (year a =? year b) && (month a =? month b) && (day a =? day b).

(** Row [a] was not stored before row [b]. *)
Definition not_older (a b : row) : Prop :=
  forall ta tb, stamped a ta -> stamped b tb -> Datetime.leb tb ta = true.

(** How three comparisons [x ? y], [y ? z] and [x ? z] of a total order go
    together. *)
Definition trans3 (c1 c2 c3 : comparison) : Prop :=
  match c1, c2 with
  | Eq, x => c3 = x
  | x, Eq => c3 = x
  | Lt, Lt => c3 = Lt
  | Gt, Gt => c3 = Gt
  | _, _ => True
  end.

(** The pattern that a search makes is one that LIKE takes. *)
Definition search_ok (search : option string) : bool :=
  match search with
  | Some s => SQLite.like_pattern_ok ("%" ++ s ++ "%")
  | None => true
  end.

(** The rows that [get_recent_tests] selects for a search. *)
Definition selected (search : option string) (w : world) : list row :=
  match search with
  | None | Some EmptyString => rows w
  | Some s => filter (fun r => SQLite.holds (search_where s r)) (rows w)
  end.

(** [s] has the shape [YYYY-MM-DD HH:MM:SS]. *)
Definition is_digit (c : ascii) : bool :=
  ((48 <=? N_of_ascii c) && (N_of_ascii c <=? 57))%N.

Definition is_timestamp (s : string) : bool :=
  match list_ascii_of_string s with
  | [y1; y2; y3; y4; s1; m1; m2; s2; d1; d2; s3; h1; h2; s4; i1; i2; s5; c1; c2] =>
      forallb is_digit [y1; y2; y3; y4; m1; m2; d1; d2; h1; h2; i1; i2; c1; c2]
      && Ascii.eqb s1 "-" && Ascii.eqb s2 "-" && Ascii.eqb s3 " "
      && Ascii.eqb s4 ":" && Ascii.eqb s5 ":"
  | _ => false
  end.

(** The operations of the page on the store. *)
Inductive op : Type :=
| Run (file_paths : list string) (browser : option string)
| Delete (days : option Z)
| Recent (limit : option Z) (search : option string)
| Kpis (days : option Z)
| Trend.

(** The world after an operation, whether it returned or raised. *)
Definition after {env : Env} {df : SQLite.DateFunctions} (o : op) (w : world)
  : world :=
  match o with
  | Run file_paths browser => snd (run_robot_tests file_paths browser w)
  | Delete days => snd (delete_old_tests days w)
  | Recent limit search => snd (get_recent_tests limit search w)
  | Kpis days => snd (get_kpis days w)
  | Trend => snd (daily_trend w)
  end.

(** The value of a decimal digit. *)
Definition digit_value (c : ascii) : Z := Z.of_N (N_of_ascii c) - 48.

(** The datetime that a text of the shape [YYYY-MM-DD HH:MM:SS] says, read
    off its digits. *)
Definition read_timestamp (s : string) : option datetime :=
  if is_timestamp s then
    match list_ascii_of_string s with
    | [y1; y2; y3; y4; _; m1; m2; _; d1; d2; _; h1; h2; _; i1; i2; _; c1; c2] =>
        let v := digit_value in
        Some (mkdt (1000 * v y1 + 100 * v y2 + 10 * v y3 + v y4)
                   (10 * v m1 + v m2) (10 * v d1 + v d2)
                   (10 * v h1 + v h2) (10 * v i1 + v i2) (10 * v c1 + v c2))
    | _ => None
    end
  else None.

(** What holds of a row written between interactions [n0] and [n1] into a
    table whose largest id was [sq]: its date is a text of the shape
    [YYYY-MM-DD HH:MM:SS] that says the clock reading of its writing. *)
Definition written {env : Env} (sq : Z) (n0 n1 : nat) (r : row) : Prop :=
  exists name st d n,
    sq < id r
    /\ test_name r = Some name
    /\ status r = Some st
    /\ duration r = Some d /\ (0 <= d)%Q
    /\ (n0 <= n < n1)%nat
    /\ execution_date r = Some (Datetime.strftime (clock n))
    /\ is_timestamp (Datetime.strftime (clock n)) = true
    /\ (exists s, execution_date r = Some s /\ read_timestamp s = Some (clock n)).

(** ** A concrete world, for running the program *)

Module Demo.

(** A clock that advances by one second at each interaction. *)
Definition demo_clock (n : nat) : datetime :=
  mkdt 2024 3 15 12 (Z.of_nat ((n / 60) mod 60)) (Z.of_nat (n mod 60)).

(** [robot] is missing for [b.robot]; [c.robot] has a failing test. *)
Definition demo_robot (n : nat) (cmd : list string) : outcome :=
  let file_path := last cmd "" in
  if String.eqb file_path "temp_uploads/b.robot"
  then Faulted "[Errno 2] No such file or directory: 'robot'"
  else if String.eqb file_path "temp_uploads/c.robot"
  then Exited ["1 test, 0 passed, 1 failed"; "Output: output.xml"] 1
  else Exited ["1 test, 1 passed, 0 failed"] 0.

#[export] Instance demo_env : Env :=
  {| clock := demo_clock; robot := demo_robot |}.

(** Date functions that are right on stored timestamps (and only claimed
    there). *)
#[export] Instance demo_dates : SQLite.DateFunctions :=
  {| SQLite.datetime_fn := fun x => x;
     SQLite.date_fn := option_map (substring 0 10) |}.

Definition empty_world : world := mkworld [] 0 0.

(** A table read at 2024-03-15 12:00:00: its rows are 20 days, 5 days,
    1 day and 18 hours old. *)
Definition history : list row :=
  [ mkrow 1 (Some "test_chrome_login") (Some "2024-02-24 12:00:00")
      (Some 30%Q) (Some "Pass");
    mkrow 2 (Some "test_firefox_logout") (Some "2024-03-10 09:30:00")
      (Some 10%Q) (Some "Fail");
    mkrow 3 (Some "cart.robot") (Some "2024-03-14 12:00:00")
      (Some 20%Q) (Some "Pass");
    mkrow 4 (Some "cart.robot") (Some "2024-03-14 18:00:00")
      (Some 6%Q) (Some "Pass") ].

Definition history_world : world := mkworld history 4 0.

(** The times at which the rows of [history] were stored. *)
Definition history_times : list datetime :=
  [ mkdt 2024 2 24 12 0 0; mkdt 2024 3 10 9 30 0;
    mkdt 2024 3 14 12 0 0; mkdt 2024 3 14 18 0 0 ].

(** Two passes and a failure on 2024-01-01, one pass on 2024-01-02. *)
Definition trend_rows : list row :=
  [ mkrow 1 (Some "login.robot") (Some "2024-01-01 08:00:00")
      (Some 3%Q) (Some "Pass");
    mkrow 2 (Some "cart.robot") (Some "2024-01-02 09:00:00")
      (Some 5%Q) (Some "Pass");
    mkrow 3 (Some "cart.robot") (Some "2024-01-01 10:30:00")
      (Some 7%Q) (Some "Fail");
    mkrow 4 (Some "login.robot") (Some "2024-01-01 23:59:59")
      (Some 3%Q) (Some "Pass") ].

Definition trend_world : world := mkworld trend_rows 4 0.

Definition three_files : list string :=
  ["temp_uploads/a.robot"; "temp_uploads/b.robot"; "temp_uploads/c.robot"].

End Demo.

(** ** The page: what its buttons and fields call *)





Section Page.
Context {env : Env} {df : SQLite.DateFunctions}.


End Page.

(** ** More vocabulary *)

(** The ids of the table ascend and none exceeds the largest id given
    out. *)
Definition ids_ok (w : world) : Prop :=
  Forall (fun r => id r <= seq w) (rows w)
  /\ StronglySorted Z.lt (map id (rows w)).

(** The status of the row is one of the two the orchestrator writes. *)
Definition status_ok (r : row) : Prop :=
  status r = Some "Pass" \/ status r = Some "Fail".

(** The operations one after the other. *)
Fixpoint run_ops {env : Env} {df : SQLite.DateFunctions}
  (ops : list op) (w : world) : world :=
  match ops with
  | [] => w
  | o :: ops' => run_ops ops' (after o w)
  end.

(** The row is as the orchestrator writes rows: stored at a valid time,
    named, with a duration that is not negative and a status [Pass] or
    [Fail]. *)
Definition row_ok (r : row) : Prop :=
  (exists t, stamped r t)
  /\ (exists name, test_name r = Some name)
  /\ (exists d, duration r = Some d /\ (0 <= d)%Q)
  /\ status_ok r.


(** All the tests of the entries of a daily trend. *)
Definition trend_total (l : list (option string * Z * Z)) : Z :=
  fold_right (fun e acc => snd (fst e) + snd e + acc) 0 l.


(** The text is made of [%] alone. *)
Fixpoint only_percent (s : string) : bool :=
  match s with
  | EmptyString => true
  | String a s' => Ascii.eqb a "%" && only_percent s'
  end.

(** * Properties *)

Example basename_ex : Py.basename "temp_uploads/login.robot" = "login.robot".
Proof. reflexivity. Qed.

Example splitext_ex : Py.splitext_root "login.tar.robot" = "login.tar"
  /\ Py.splitext_root ".robot" = ".robot".
Proof. split; reflexivity. Qed.

Example strftime_ex :
  Datetime.strftime (mkdt 2024 3 5 9 7 0) = "2024-03-05 09:07:00".
Proof. reflexivity. Qed.

Example sub_days_ex :
  Datetime.sub_days (mkdt 2024 3 15 12 0 0) 20 = Some (mkdt 2024 2 24 12 0 0)
  /\ Datetime.sub_days (mkdt 2024 1 5 12 0 0) 7 = Some (mkdt 2023 12 29 12 0 0)
  /\ Datetime.sub_days (mkdt 2024 12 31 1 2 3) 0 = Some (mkdt 2024 12 31 1 2 3)
  /\ Datetime.sub_days (mkdt 2024 3 1 0 0 0) 1 = Some (mkdt 2024 2 29 0 0 0).
Proof. repeat split; vm_compute; reflexivity. Qed.

(** ** Timestamps compare as text the way they compare in time *)

Lemma ascii_compare_digit (d e : Z) :
  0 <= d < 10 -> 0 <= e < 10 ->
  Ascii.compare (Datetime.digit d) (Datetime.digit e) = (d ?= e).
Proof.
  intros Hd He. unfold Ascii.compare, Datetime.digit.
  rewrite !N_ascii_embedding by lia.
  rewrite <- (N2Z.inj_compare (48 + Z.to_N d) (48 + Z.to_N e)).
  rewrite !N2Z.inj_add, !Z2N.id by lia.
  apply Z.add_compare_mono_l.
Qed.

Lemma append_assoc (a b c : string) : (a ++ b) ++ c = a ++ (b ++ c).
Proof. induction a as [|x a IH]; simpl; [reflexivity | now rewrite IH]. Qed.

Lemma append_empty_r (a : string) : a ++ "" = a.
Proof. induction a as [|x a IH]; simpl; [reflexivity | now rewrite IH]. Qed.

Lemma compare_pad (w : nat) : forall (a b : Z) (r1 r2 : string),
  0 <= a < 10 ^ Z.of_nat w -> 0 <= b < 10 ^ Z.of_nat w ->
  String.compare (Datetime.pad w a ++ r1) (Datetime.pad w b ++ r2)
  = Datetime.lex (a ?= b) (String.compare r1 r2).
Proof.
  induction w as [|w IH]; intros a b r1 r2 Ha Hb.
  - simpl in *. assert (a = 0) by lia. assert (b = 0) by lia. subst.
    reflexivity.
  - rewrite Nat2Z.inj_succ, Z.pow_succ_r in Ha, Hb by lia.
    set (B := 10 ^ Z.of_nat w) in *.
    assert (HB : 0 < B) by (apply Z.pow_pos_nonneg; lia).
    cbn [Datetime.pad String.append String.compare]. fold B.
    assert (Hqa : 0 <= a / B < 10).
    { split; [apply Z.div_pos; lia | apply Z.div_lt_upper_bound; lia]. }
    assert (Hqb : 0 <= b / B < 10).
    { split; [apply Z.div_pos; lia | apply Z.div_lt_upper_bound; lia]. }
    pose proof (Z.mod_pos_bound a B HB) as Hra.
    pose proof (Z.mod_pos_bound b B HB) as Hrb.
    rewrite ascii_compare_digit by assumption.
    rewrite (IH (a mod B) (b mod B)) by assumption.
    pose proof (Z.div_mod a B ltac:(lia)) as Ea.
    pose proof (Z.div_mod b B ltac:(lia)) as Eb.
    destruct (Z.compare_spec (a / B) (b / B)) as [Hq|Hq|Hq]; cbn [Datetime.lex].
    + assert (Hc : (a ?= b) = (a mod B ?= b mod B)).
      { rewrite Ea, Eb at 1. rewrite Hq.
        rewrite Z.add_compare_mono_l. reflexivity. }
      rewrite Hc. reflexivity.
    + assert (Hlt : a < b) by nia.
      apply Z.compare_lt_iff in Hlt. rewrite Hlt. reflexivity.
    + assert (Hgt : b < a) by nia.
      apply Z.compare_gt_iff in Hgt. rewrite Hgt. reflexivity.
Qed.

Lemma compare_sep (c : ascii) (r1 r2 : string) :
  String.compare (String c r1) (String c r2) = String.compare r1 r2.
Proof.
  cbn [String.compare].
  assert (H : Ascii.compare c c = Eq).
  { unfold Ascii.compare. apply N.compare_refl. }
  rewrite H. reflexivity.
Qed.

(** The fields of a valid datetime fit their printed widths. *)
Lemma valid_fields (t : datetime) :
  Datetime.valid t = true ->
  1000 <= year t <= 9999 /\ 1 <= month t <= 12 /\ 1 <= day t <= 31
  /\ 0 <= hour t <= 23 /\ 0 <= minute t <= 59 /\ 0 <= second t <= 59.
Proof.
  unfold Datetime.valid. rewrite !andb_true_iff, !Z.leb_le.
  intros [[[[[[[[[[[Hy1 Hy2] Hm1] Hm2] Hd1] Hd2] Hh1] Hh2] Hi1] Hi2] Hs1] Hs2].
  assert (Hdim : Datetime.days_in_month (year t) (month t) <= 31).
  { unfold Datetime.days_in_month.
    destruct ((month t =? 2) && Datetime.is_leap (year t)); [lia|].
    assert (Hm : month t = 1 \/ month t = 2 \/ month t = 3 \/ month t = 4
                 \/ month t = 5 \/ month t = 6 \/ month t = 7 \/ month t = 8
                 \/ month t = 9 \/ month t = 10 \/ month t = 11 \/ month t = 12)
      by lia.
    repeat (destruct Hm as [Hm|Hm]; [rewrite Hm; simpl; lia|]).
    rewrite Hm; simpl; lia. }
  lia.
Qed.

Lemma year_text_valid (y : Z) :
  1000 <= y -> Datetime.year_text y = Datetime.pad 4 y.
Proof.
  intros H. unfold Datetime.year_text.
  destruct (Z.ltb_spec y 10); [lia|].
  destruct (Z.ltb_spec y 100); [lia|].
  destruct (Z.ltb_spec y 1000); [lia | reflexivity].
Qed.

Lemma strftime_compare (a b : datetime) :
  Datetime.valid a = true -> Datetime.valid b = true ->
  String.compare (Datetime.strftime a) (Datetime.strftime b)
  = Datetime.compare a b.
Proof.
  intros Ha Hb.
  apply valid_fields in Ha. apply valid_fields in Hb.
  unfold Datetime.strftime, Datetime.strftime_date, Datetime.compare.
  rewrite !year_text_valid by lia.
  rewrite !append_assoc.
  repeat (rewrite compare_pad by (simpl; lia);
          try (cbn [String.append]; rewrite compare_sep)).
  f_equal. f_equal. f_equal. f_equal. f_equal.
  rewrite <- (append_empty_r (Datetime.pad 2 (second a))).
  rewrite <- (append_empty_r (Datetime.pad 2 (second b))).
  rewrite compare_pad by (simpl; lia).
  destruct (second a ?= second b); reflexivity.
Qed.

(** ** The run orchestrator *)

Lemma run_robot_test_eq {env : Env} (browser file_path : string) (w : world) :
  run_robot_test browser file_path w
  = (Ret (turn_result browser file_path (tick w)),
     mkworld (rows w ++ [turn_row browser file_path (seq w) (tick w)])
             (seq w + 1) (S (S (S (tick w))))).
Proof.
  unfold run_robot_test, turn_result, turn_row, launched, bind, try_except,
    now, popen, save_test_result, insert, ret. cbn [tick rows seq].
  destruct (robot (S (tick w)) _) as [output_lines returncode|e];
    cbn [tick rows seq]; reflexivity.
Qed.

Lemma run_loop_eq {env : Env} (browser : string) (file_paths : list string) :
  forall (acc : list (string * string * string)) (w : world),
  exists results new,
    run_loop browser file_paths acc w
    = (Ret (acc ++ results)%list,
       mkworld (rows w ++ new)
               (seq w + Z.of_nat (List.length file_paths))
               (tick w + 3 * List.length file_paths)%nat)
    /\ List.length results = List.length file_paths
    /\ List.length new = List.length file_paths
    /\ forall i file_path, nth_error file_paths i = Some file_path ->
         nth_error results i
         = Some (turn_result browser file_path (tick w + 3 * i)%nat)
         /\ nth_error new i
            = Some (turn_row browser file_path (seq w + Z.of_nat i)
                      (tick w + 3 * i)%nat).
Proof.
  induction file_paths as [|p rest IH]; intros acc w.
  - exists [], []. cbn [run_loop ret List.length]. rewrite !app_nil_r.
    rewrite Z.add_0_r, Nat.mul_0_r, Nat.add_0_r.
    repeat split; try (destruct w; reflexivity).
    all: destruct i; discriminate.
  - cbn [run_loop]. unfold bind at 1. rewrite run_robot_test_eq.
    set (w1 := mkworld _ _ _).
    destruct (IH (acc ++ [turn_result browser p (tick w)])%list w1)
      as (results & new & Hrun & Hlr & Hln & Hnth).
    exists (turn_result browser p (tick w) :: results),
           (turn_row browser p (seq w) (tick w) :: new).
    rewrite Hrun. subst w1. cbn [rows seq tick List.length].
    rewrite <- !app_assoc. cbn [app].
    repeat split.
    + f_equal. f_equal; [lia | lia].
    + now rewrite Hlr.
    + now rewrite Hln.
    + destruct i as [|i]; cbn [nth_error] in *.
      * injection H as <-. rewrite Nat.mul_0_r, Nat.add_0_r. reflexivity.
      * destruct (Hnth i file_path H) as [Hr _]. cbn [tick] in Hr.
        rewrite Hr. do 2 f_equal. lia.
    + destruct i as [|i]; cbn [nth_error] in *.
      * injection H as <-. rewrite Nat.mul_0_r, Nat.add_0_r, Z.add_0_r.
        reflexivity.
      * destruct (Hnth i file_path H) as [_ Hr]. cbn [tick seq] in Hr.
        rewrite Hr. do 2 f_equal; lia.
Qed.

(** C1.  A batch never stops at a fault.  [run_robot_tests] returns, and it
    leaves one new row and one triple per file, in the order of the files,
    named by the base name of the file.  For a file whose process could not
    be launched or raised while it ran, the row has status [Fail] and
    duration 0, and the triple carries the text of the exception as its
    output. *)
Theorem run_robot_tests_isolates_faults {env : Env}
  (file_paths : list string) (browser : option string) (w : world) :
  let b := match browser with Some b => b | None => "chrome" end in
  exists results new,
    run_robot_tests file_paths browser w
    = (Ret results,
       mkworld (rows w ++ new)
               (seq w + Z.of_nat (List.length file_paths))
               (tick w + 3 * List.length file_paths)%nat)
    /\ List.length results = List.length file_paths
    /\ List.length new = List.length file_paths
    /\ forall i file_path, nth_error file_paths i = Some file_path ->
       exists r st out,
         nth_error new i = Some r
         /\ nth_error results i = Some (Py.basename file_path, st, out)
         /\ test_name r = Some (Py.basename file_path)
         /\ status r = Some st
         /\ forall e, launched b file_path (tick w + 3 * i)%nat = Faulted e ->
              st = "Fail" /\ duration r = Some 0%Q /\ out = e.
Proof.
  intros b. unfold run_robot_tests. fold b.
  destruct (run_loop_eq b file_paths [] w)
    as (results & new & Hrun & Hlr & Hln & Hnth).
  exists results, new. cbn [app] in Hrun.
  repeat split; try assumption.
  intros i file_path Hi. destruct (Hnth i file_path Hi) as [Hr Hn].
  unfold turn_result in Hr. unfold turn_row in Hn.
  destruct (launched b file_path (tick w + 3 * i)%nat)
    as [output_lines returncode|e0] eqn:Hl.
  - exists (mkrow (seq w + Z.of_nat i + 1) (Some (Py.basename file_path))
              (Some (Datetime.strftime (clock (S (S (tick w + 3 * i))))))
              (Some (inject_Z (Z.of_nat (List.length output_lines))))
              (Some (if returncode =? 0 then "Pass" else "Fail"))),
           (if returncode =? 0 then "Pass" else "Fail"),
           (Py.join (String "010" "") output_lines).
    split; [exact Hn|]. split; [exact Hr|].
    split; [reflexivity|]. split; [reflexivity|].
    intros e He. discriminate He.
  - exists (mkrow (seq w + Z.of_nat i + 1) (Some (Py.basename file_path))
              (Some (Datetime.strftime (clock (S (S (tick w + 3 * i))))))
              (Some 0%Q) (Some "Fail")),
           "Fail", e0.
    split; [exact Hn|]. split; [exact Hr|].
    split; [reflexivity|]. split; [reflexivity|].
    intros e He. injection He as <-. repeat split.
Qed.

(** A batch of three files whose second file cannot be launched. *)
Lemma run_robot_tests_isolates_faults_witness :
  exists results new w',
    run_robot_tests (env := Demo.demo_env) Demo.three_files None Demo.empty_world
    = (Ret results, w')
    /\ rows w' = new
    /\ List.length new = 3%nat
    /\ map status new = [Some "Pass"; Some "Fail"; Some "Fail"]
    /\ map duration new = [Some 1%Q; Some 0%Q; Some 2%Q]
    /\ nth_error results 1
       = Some ("b.robot", "Fail", "[Errno 2] No such file or directory: 'robot'").
Proof.
  destruct (run_robot_tests_isolates_faults (env := Demo.demo_env)
              Demo.three_files None Demo.empty_world)
    as (results & new & Hrun & _ & Hln & _).
  exists results, new, (mkworld new 3 9).
  split; [exact Hrun|]. split; [reflexivity|]. split; [exact Hln|].
  vm_compute in Hrun. injection Hrun as <- <-.
  repeat split.
Defined.

(** C2.  For a file whose process ran to its end, the status is [Pass]
    exactly when the exit code is 0 and [Fail] for every other exit code,
    the stored duration is the number of output lines, and the triple
    carries the lines joined by newlines. *)
Theorem run_robot_tests_status_and_duration {env : Env}
  (file_paths : list string) (browser : option string) (w : world) :
  let b := match browser with Some b => b | None => "chrome" end in
  exists results new,
    run_robot_tests file_paths browser w
    = (Ret results,
       mkworld (rows w ++ new)
               (seq w + Z.of_nat (List.length file_paths))
               (tick w + 3 * List.length file_paths)%nat)
    /\ forall i file_path output_lines returncode,
       nth_error file_paths i = Some file_path ->
       launched b file_path (tick w + 3 * i)%nat
       = Exited output_lines returncode ->
       exists r st,
         nth_error new i = Some r
         /\ nth_error results i
            = Some (Py.basename file_path, st,
                    Py.join (String "010" "") output_lines)
         /\ status r = Some st
         /\ (st = "Pass" <-> returncode = 0)
         /\ (returncode <> 0 -> st = "Fail")
         /\ duration r = Some (inject_Z (Z.of_nat (List.length output_lines))).
Proof.
  intros b. unfold run_robot_tests. fold b.
  destruct (run_loop_eq b file_paths [] w)
    as (results & new & Hrun & Hlr & Hln & Hnth).
  exists results, new. cbn [app] in Hrun. split; [assumption|].
  intros i file_path output_lines returncode Hi Hl.
  destruct (Hnth i file_path Hi) as [Hr Hn].
  unfold turn_result in Hr. unfold turn_row in Hn. rewrite Hl in Hr, Hn.
  exists (mkrow (seq w + Z.of_nat i + 1) (Some (Py.basename file_path))
            (Some (Datetime.strftime (clock (S (S (tick w + 3 * i))))))
            (Some (inject_Z (Z.of_nat (List.length output_lines))))
            (Some (if returncode =? 0 then "Pass" else "Fail"))),
         (if returncode =? 0 then "Pass" else "Fail").
  split; [exact Hn|]. split; [exact Hr|]. split; [reflexivity|].
  destruct (Z.eqb_spec returncode 0) as [E|E].
  - split; [split; intros _; [exact E | reflexivity]|].
    split; [intros Hne; contradiction | reflexivity].
  - split; [split; [discriminate | intros E0; contradiction]|].
    split; [intros _; reflexivity | reflexivity].
Qed.

(** In the batch of three files the first process exits with 0 after one
    line and the third with 1 after two lines. *)
Lemma run_robot_tests_status_and_duration_witness :
  exists results new w',
    run_robot_tests (env := Demo.demo_env) Demo.three_files None Demo.empty_world
    = (Ret results, w')
    /\ rows w' = new
    /\ (exists r, nth_error new 0 = Some r
                  /\ status r = Some "Pass" /\ duration r = Some 1%Q)
    /\ (exists r, nth_error new 2 = Some r
                  /\ status r = Some "Fail" /\ duration r = Some 2%Q).
Proof.
  destruct (run_robot_tests_status_and_duration (env := Demo.demo_env)
              Demo.three_files None Demo.empty_world)
    as (results & new & Hrun & Hfile).
  exists results, new, (mkworld new 3 9).
  split; [exact Hrun|]. split; [reflexivity|]. split.
  - destruct (Hfile 0%nat "temp_uploads/a.robot"
                ["1 test, 1 passed, 0 failed"] 0 eq_refl eq_refl)
      as (r & st & Hr & _ & Hst & Hpass & _ & Hdur).
    exists r. split; [exact Hr|]. split; [|exact Hdur].
    rewrite Hst. f_equal. now apply Hpass.
  - destruct (Hfile 2%nat "temp_uploads/c.robot"
                ["1 test, 0 passed, 1 failed"; "Output: output.xml"] 1
                eq_refl eq_refl)
      as (r & st & Hr & _ & Hst & _ & Hfail & Hdur).
    exists r. split; [exact Hr|]. split; [|exact Hdur].
    rewrite Hst. f_equal. apply Hfail. discriminate.
Defined.

(** ** Rows are written once, with the time of writing *)

Lemma is_digit_digit (d : Z) :
  0 <= d < 10 -> is_digit (Datetime.digit d) = true.
Proof.
  intros Hd. unfold is_digit, Datetime.digit.
  rewrite N_ascii_embedding by lia.
  apply andb_true_iff. split; apply N.leb_le; lia.
Qed.

Lemma is_timestamp_strftime (t : datetime) :
  Datetime.valid t = true -> is_timestamp (Datetime.strftime t) = true.
Proof.
  intros Hv. apply valid_fields in Hv.
  unfold is_timestamp, Datetime.strftime, Datetime.strftime_date.
  rewrite year_text_valid by lia.
  cbn [Datetime.pad String.append list_ascii_of_string forallb].
  change (Z.of_nat 3) with 3. change (Z.of_nat 2) with 2.
  change (Z.of_nat 1) with 1. change (Z.of_nat 0) with 0.
  change (10 ^ 3) with 1000. change (10 ^ 2) with 100.
  change (10 ^ 1) with 10. change (10 ^ 0) with 1.
  rewrite !is_digit_digit by (Z.div_mod_to_equations; lia).
  reflexivity.
Qed.

Lemma digit_value_digit (d : Z) :
  0 <= d < 10 -> digit_value (Datetime.digit d) = d.
Proof.
  intros Hd. unfold digit_value, Datetime.digit.
  rewrite N_ascii_embedding by lia. lia.
Qed.

(** The text that [strftime] writes for a valid datetime reads back as that
    datetime. *)
Lemma read_timestamp_strftime (t : datetime) :
  Datetime.valid t = true -> read_timestamp (Datetime.strftime t) = Some t.
Proof.
  intros Hv. unfold read_timestamp.
  rewrite (is_timestamp_strftime t Hv). apply valid_fields in Hv.
  unfold Datetime.strftime, Datetime.strftime_date.
  rewrite year_text_valid by lia.
  cbn [Datetime.pad String.append list_ascii_of_string].
  change (Z.of_nat 3) with 3. change (Z.of_nat 2) with 2.
  change (Z.of_nat 1) with 1. change (Z.of_nat 0) with 0.
  change (10 ^ 3) with 1000. change (10 ^ 2) with 100.
  change (10 ^ 1) with 10. change (10 ^ 0) with 1.
  cbv zeta. rewrite !digit_value_digit by (Z.div_mod_to_equations; lia).
  destruct t as [y m d h i c]. cbn [year month day hour minute second] in *.
  f_equal. f_equal; Z.div_mod_to_equations; lia.
Qed.

Lemma save_test_result_eq {env : Env} (name : string) (dur : Q) (st : string)
  (w : world) :
  save_test_result name dur st w
  = (Ret tt,
     mkworld
       (rows w ++ [mkrow (seq w + 1) (Some name)
                     (Some (Datetime.strftime (clock (tick w))))
                     (Some dur) (Some st)])
       (seq w + 1) (S (tick w))).
Proof. reflexivity. Qed.

Lemma turn_row_written {env : Env} (Hclock : clock_valid env)
  (browser file_path : string) (sq0 sq : Z) (n0 n n1 : nat) :
  sq0 <= sq -> (n0 <= n)%nat -> (n + 3 <= n1)%nat ->
  written sq0 n0 n1 (turn_row browser file_path sq n).
Proof.
  intros Hsq Hn0 Hn1. unfold written, turn_row.
  assert (Hstamp : is_timestamp (Datetime.strftime (clock (S (S n)))) = true)
    by apply is_timestamp_strftime, Hclock.
  assert (Hread : exists s,
             Some (Datetime.strftime (clock (S (S n)))) = Some s
             /\ read_timestamp s = Some (clock (S (S n)))).
  { eexists. split; [reflexivity|]. apply read_timestamp_strftime, Hclock. }
  assert (H0 : forall k : nat, (0 <= inject_Z (Z.of_nat k))%Q)
    by (intros k; unfold Qle; simpl; lia).
  destruct (launched browser file_path n) as [output_lines returncode|e].
  - exists (Py.basename file_path), (if returncode =? 0 then "Pass" else "Fail"),
      (inject_Z (Z.of_nat (List.length output_lines))), (S (S n)).
    cbn [id test_name status duration execution_date].
    split; [lia|]. split; [reflexivity|]. split; [reflexivity|].
    split; [reflexivity|]. split; [apply H0|]. split; [lia|].
    split; [reflexivity|]. split; [exact Hstamp | exact Hread].
  - exists (Py.basename file_path), "Fail", 0%Q, (S (S n)).
    cbn [id test_name status duration execution_date].
    split; [lia|]. split; [reflexivity|]. split; [reflexivity|].
    split; [reflexivity|]. split; [apply (H0 0%nat)|]. split; [lia|].
    split; [reflexivity|]. split; [exact Hstamp | exact Hread].
Qed.

Lemma filter_all {A : Type} (l : list A) : l = filter (fun _ => true) l.
Proof. induction l as [|x l IH]; simpl; [reflexivity | now rewrite <- IH]. Qed.

Lemma get_kpis_run {env : Env} (days : option Z) (w : world) :
  let w' := mkworld (rows w) (seq w) (S (tick w)) in
  exists x, get_kpis days w = (x, w').
Proof.
  intros w'. unfold get_kpis, days_ago, bind, now, get_rows, ret, raise, mean,
    truediv. cbn [tick rows seq].
  destruct (Datetime.sub_days _ _) as [t|]; [|eexists; reflexivity].
  destruct (non_null _) as [|d durations];
    repeat match goal with
           | |- context [?a =? 0] => destruct (a =? 0)
           end; eexists; reflexivity.
Qed.

Lemma get_kpis_rows {env : Env} (days : option Z) (w : world) :
  rows (snd (get_kpis days w)) = rows w.
Proof. destruct (get_kpis_run days w) as [x ->]. reflexivity. Qed.

Lemma get_kpis_tick {env : Env} (days : option Z) (w : world) :
  tick (snd (get_kpis days w)) = S (tick w).
Proof. destruct (get_kpis_run days w) as [x ->]. reflexivity. Qed.

Lemma after_rows {env : Env} {df : SQLite.DateFunctions}
  (Hclock : clock_valid env) (o : op) (w : world) :
  exists keep new,
    rows (after o w) = (filter keep (rows w) ++ new)%list
    /\ Forall (written (seq w) (tick w) (tick (after o w))) new
    /\ match o with
       | Run file_paths _ =>
           filter keep (rows w) = rows w
           /\ List.length new = List.length file_paths
       | _ => new = []
       end.
Proof.
  destruct o as [file_paths browser|days|limit search|days|].
  - cbn [after]. unfold run_robot_tests.
    set (b := match browser with Some b => b | None => "chrome" end).
    destruct (run_loop_eq b file_paths [] w)
      as (results & new & Hrun & Hlr & Hln & Hnth).
    rewrite Hrun. cbn [snd rows tick].
    exists (fun _ => true), new. rewrite <- filter_all.
    split; [reflexivity|]. split; [|split; [reflexivity | exact Hln]].
    apply Forall_forall. intros r Hr.
    apply In_nth_error in Hr. destruct Hr as [i Hi].
    assert (Hlt : (i < List.length file_paths)%nat).
    { rewrite <- Hln. apply nth_error_Some. congruence. }
    destruct (nth_error file_paths i) as [file_path|] eqn:Hp.
    2:{ apply nth_error_None in Hp. lia. }
    destruct (Hnth i file_path Hp) as [_ Hrow].
    rewrite Hi in Hrow. injection Hrow as ->.
    apply turn_row_written; try assumption; lia.
  - cbn [after]. unfold delete_old_tests, days_ago, bind, now, get_rows,
      set_rows, ret, raise. cbn [tick rows seq].
    destruct (Datetime.sub_days _ _) as [t|]; cbn [snd rows tick].
    + eexists _, []. rewrite app_nil_r.
      split; [reflexivity|]. split; [constructor | reflexivity].
    + exists (fun _ => true), []. rewrite app_nil_r, <- filter_all.
      split; [reflexivity|]. split; [constructor | reflexivity].
  - cbn [after]. exists (fun _ => true), [].
    rewrite app_nil_r, <- filter_all.
    split; [reflexivity|]. split; [constructor | reflexivity].
  - cbn [after]. exists (fun _ => true), [].
    rewrite app_nil_r, <- filter_all.
    rewrite (get_kpis_rows days w), (get_kpis_tick days w).
    split; [reflexivity|]. split; [constructor | reflexivity].
  - cbn [after]. exists (fun _ => true), [].
    rewrite app_nil_r, <- filter_all.
    split; [reflexivity|]. split; [constructor | reflexivity].
Qed.

(** The table starts empty and every operation keeps it made of rows that
    [save_test_result] wrote. *)
Lemma table_wf_nil : table_wf [].
Proof. constructor. Qed.

Lemma table_wf_after {env : Env} {df : SQLite.DateFunctions}
  (Hclock : clock_valid env) (o : op) (w : world) :
  table_wf (rows w) -> table_wf (rows (after o w)).
Proof.
  intros Hwf. destruct (after_rows Hclock o w) as (keep & new & -> & Hnew & _).
  unfold table_wf in *. rewrite Forall_forall in *.
  intros r Hr. apply in_app_or in Hr. destruct Hr as [Hr|Hr].
  - apply filter_In in Hr. now apply Hwf.
  - destruct (Hnew r Hr) as (name & st & d & n & _ & _ & _ & _ & _ & _ & Hd & _).
    exists (clock n). split; [apply Hclock | exact Hd].
Qed.

(** C7.  [save_test_result] appends one row that carries the clock reading
    of the call as [YYYY-MM-DD HH:MM:SS] and leaves the rows before it as
    they are.  After any operation of the page the table is some of its
    former rows, unchanged and in their order, followed by the rows written
    during the operation; each of those has a name, a status, a duration
    that is not negative and, as its date, a text [YYYY-MM-DD HH:MM:SS]
    whose digits say the clock reading of its writing.  So no row changes
    once it is written. *)
Theorem rows_written_once {env : Env} {df : SQLite.DateFunctions}
  (Hclock : clock_valid env) :
  (forall name dur st w,
     save_test_result name dur st w
     = (Ret tt,
        mkworld
          (rows w ++ [mkrow (seq w + 1) (Some name)
                        (Some (Datetime.strftime (clock (tick w))))
                        (Some dur) (Some st)])
          (seq w + 1) (S (tick w)))
     /\ is_timestamp (Datetime.strftime (clock (tick w))) = true
     /\ read_timestamp (Datetime.strftime (clock (tick w)))
        = Some (clock (tick w)))
  /\ forall (o : op) (w : world),
     exists keep new,
       rows (after o w) = (filter keep (rows w) ++ new)%list
       /\ Forall (written (seq w) (tick w) (tick (after o w))) new
       /\ match o with
          | Run file_paths _ =>
              filter keep (rows w) = rows w
              /\ List.length new = List.length file_paths
          | _ => new = []
          end.
Proof.
  split.
  - intros name dur st w. split; [apply save_test_result_eq|].
    split; [apply is_timestamp_strftime | apply read_timestamp_strftime];
      apply Hclock.
  - intros o w. now apply after_rows.
Qed.

Lemma demo_clock_valid : clock_valid Demo.demo_env.
Proof.
  intros n. unfold Datetime.valid.
  cbn [clock Demo.demo_env Demo.demo_clock year month day hour minute second].
  change (Datetime.days_in_month 2024 3) with 31.
  pose proof (Nat.mod_upper_bound (n / 60) 60 ltac:(lia)).
  pose proof (Nat.mod_upper_bound n 60 ltac:(lia)).
  rewrite !andb_true_iff, !Z.leb_le. lia.
Qed.

(** The rows of the three-file batch were written during the batch. *)
Lemma rows_written_once_witness :
  Forall (written (env := Demo.demo_env) 0 0 9)
    (rows (after (env := Demo.demo_env) (df := Demo.demo_dates)
             (Run Demo.three_files None) Demo.empty_world)).
Proof.
  destruct (rows_written_once (env := Demo.demo_env) (df := Demo.demo_dates)
              demo_clock_valid) as [_ H].
  destruct (H (Run Demo.three_files None) Demo.empty_world)
    as (keep & new & Hrows & Hnew & _).
  rewrite Hrows. exact Hnew.
Defined.

(** ** Windows of time: KPIs and the retention sweep *)

Lemma strftime_leb (a b : datetime) :
  Datetime.valid a = true -> Datetime.valid b = true ->
  String.leb (Datetime.strftime a) (Datetime.strftime b) = Datetime.leb a b.
Proof.
  intros Ha Hb. unfold String.leb, Datetime.leb.
  now rewrite strftime_compare.
Qed.

Lemma strftime_ltb (a b : datetime) :
  Datetime.valid a = true -> Datetime.valid b = true ->
  String.ltb (Datetime.strftime a) (Datetime.strftime b) = Datetime.ltb a b.
Proof.
  intros Ha Hb. unfold String.ltb, Datetime.ltb.
  now rewrite strftime_compare.
Qed.

(** *** Subtracting days gives a date that exists *)

Lemma all_from_spec (f : Z -> bool) (n : nat) : forall start,
  all_from f start n = true ->
  forall z, start <= z < start + Z.of_nat n -> f z = true.
Proof.
  induction n as [|n IH]; intros start H z Hz.
  - cbn in Hz. lia.
  - cbn [all_from] in H. apply andb_true_iff in H. destruct H as [H0 H].
    destruct (Z.eq_dec z start) as [->|Hne]; [exact H0|].
    apply (IH (start + 1) H). lia.
Qed.

Lemma cycle_checked :
  all_from cycle_day_ok 0 (Z.to_nat Datetime.DI400Y) = true.
Proof. vm_compute. reflexivity. Qed.

Lemma cycle_days_ok (r : Z) :
  0 <= r < Datetime.DI400Y -> cycle_day_ok r = true.
Proof.
  intros Hr.
  apply (all_from_spec cycle_day_ok (Z.to_nat Datetime.DI400Y) 0 cycle_checked).
  rewrite Z2Nat.id; [lia | discriminate].
Qed.

Lemma is_leap_shift (y q : Z) :
  Datetime.is_leap (y + 400 * q) = Datetime.is_leap y.
Proof.
  unfold Datetime.is_leap.
  replace ((y + 400 * q) mod 4) with (y mod 4)
    by (replace (400 * q) with (100 * q * 4) by lia;
        now rewrite Z_mod_plus_full).
  replace ((y + 400 * q) mod 100) with (y mod 100)
    by (replace (400 * q) with (4 * q * 100) by lia;
        now rewrite Z_mod_plus_full).
  replace ((y + 400 * q) mod 400) with (y mod 400)
    by (replace (400 * q) with (q * 400) by lia;
        now rewrite Z_mod_plus_full).
  reflexivity.
Qed.

Lemma ord2ymd_shift (q r : Z) :
  0 <= r < Datetime.DI400Y ->
  Datetime.ord2ymd (q * Datetime.DI400Y + r + 1)
  = let '(y, m, d) := Datetime.ord2ymd (r + 1) in (y + 400 * q, m, d).
Proof.
  intros Hr. unfold Datetime.ord2ymd.
  replace (q * Datetime.DI400Y + r + 1 - 1) with (r + q * Datetime.DI400Y)
    by lia.
  replace (r + 1 - 1) with r by lia.
  rewrite Z_mod_plus_full, Z_div_plus_full by (unfold Datetime.DI400Y; lia).
  rewrite (Z.mod_small r Datetime.DI400Y), (Z.div_small r Datetime.DI400Y)
    by exact Hr.
  cbv zeta.
  destruct ((_ =? 4) || (_ =? 4)); [f_equal; f_equal; lia|].
  destruct (_ <? _); f_equal; f_equal; lia.
Qed.

Lemma ord2ymd_valid (o y m d : Z) :
  0 < o <= Datetime.MAXORDINAL ->
  Datetime.ord2ymd o = (y, m, d) ->
  1 <= y <= 9999 /\ 1 <= m <= 12 /\ 1 <= d <= Datetime.days_in_month y m.
Proof.
  intros Ho Hymd. unfold Datetime.MAXORDINAL in Ho.
  assert (HD : 0 < Datetime.DI400Y) by reflexivity.
  pose proof (Z.div_mod (o - 1) Datetime.DI400Y ltac:(lia)) as Eo.
  pose proof (Z.mod_pos_bound (o - 1) Datetime.DI400Y HD) as Hr.
  assert (Hq : 0 <= (o - 1) / Datetime.DI400Y < 25).
  { split; [apply Z.div_pos; lia|].
    apply Z.div_lt_upper_bound; [exact HD | unfold Datetime.DI400Y; lia]. }
  remember ((o - 1) / Datetime.DI400Y) as q eqn:Eq.
  remember ((o - 1) mod Datetime.DI400Y) as r eqn:Er.
  clear Eq Er.
  assert (E : o = q * Datetime.DI400Y + r + 1) by lia.
  subst o. rewrite ord2ymd_shift in Hymd by exact Hr.
  pose proof (cycle_days_ok r Hr) as Hok. unfold cycle_day_ok in Hok.
  destruct (Datetime.ord2ymd (r + 1)) as [[y0 m0] d0].
  rewrite !andb_true_iff, orb_true_iff, negb_true_iff in Hok.
  rewrite !Z.leb_le, Z.leb_gt in Hok.
  destruct Hok as [[[[[[Hy1 Hy2] Hm1] Hm2] Hd1] Hd2] Hy3].
  assert (Ey : y = y0 + 400 * q) by congruence.
  assert (Em : m = m0) by congruence.
  assert (Ed : d = d0) by congruence.
  subst y m d. clear Hymd.
  unfold Datetime.days_in_month in *. rewrite is_leap_shift.
  unfold Datetime.DI400Y in *.
  repeat split; try lia; exact Hd2.
Qed.

(** From a valid datetime, [sub_days] gives a valid datetime whenever it
    gives one of a four-digit year. *)
Lemma sub_days_valid (t : datetime) (n : Z) (t' : datetime) :
  Datetime.valid t = true ->
  Datetime.sub_days t n = Some t' ->
  1000 <= year t' ->
  Datetime.valid t' = true.
Proof.
  intros Ht Hsub Hyear. apply valid_fields in Ht.
  unfold Datetime.sub_days in Hsub.
  destruct (999999999 <? Z.abs n); [discriminate|].
  destruct ((0 <? _) && (_ <=? Datetime.MAXORDINAL)) eqn:Ho; [|discriminate].
  apply andb_true_iff in Ho. destruct Ho as [Ho1 Ho2].
  apply Z.ltb_lt in Ho1. apply Z.leb_le in Ho2.
  destruct (Datetime.ord2ymd _) as [[y m] d] eqn:Hymd.
  destruct (ord2ymd_valid _ y m d (conj Ho1 Ho2) Hymd) as (Hy & Hm & Hd).
  assert (Et : t' = mkdt y m d (hour t) (minute t) (second t)) by congruence.
  subst t'. cbn [year] in Hyear.
  unfold Datetime.valid. cbn [year month day hour minute second].
  rewrite !andb_true_iff, !Z.leb_le. repeat split; lia.
Qed.

(** A window of 400000 days starts in year 929.  Its start is written
    [929-01-15 12:00:00], a text above every stored date, so [get_kpis]
    counts no row though every row was stored after that start. *)
Lemma get_kpis_early_window_counts_nothing :
  Datetime.sub_days (clock (Env := Demo.demo_env) 0) 400000
  = Some (mkdt 929 1 15 12 0 0)
  /\ map execution_date Demo.history
     = map (fun t => Some (Datetime.strftime t)) Demo.history_times
  /\ forallb (Datetime.leb (mkdt 929 1 15 12 0 0)) Demo.history_times = true
  /\ get_kpis (env := Demo.demo_env) (Some 400000) Demo.history_world
     = (Ret (0, 0%Q, 0%Q), mkworld Demo.history 4 1).
Proof. repeat split. Qed.

(** C3 (amended).  When the start of the window can be computed and lies in
    a year of four digits, [get_kpis] returns and raises no division error.  Its total is the number of rows stored
    at or after now minus the days of the window; the rate is 0 for a total
    of 0 and successes / total * 100 otherwise; the average is the mean of
    the durations of those rows that are not NULL, and 0 when there is
    none. *)
Theorem get_kpis_over_window {env : Env} (Hclock : clock_valid env)
  (days : option Z) (w : world) (since : datetime) :
  Datetime.sub_days (clock (tick w)) (match days with Some n => n | None => 7 end)
  = Some since ->
  1000 <= year since ->
  exists in_window total rate avg,
    get_kpis days w
    = (Ret (total, rate, avg), mkworld (rows w) (seq w) (S (tick w)))
    /\ (forall r t, stamped r t -> in_window r = Datetime.leb since t)
    /\ let selected := filter in_window (rows w) in
       let successes :=
         Z.of_nat (List.length
                     (filter (fun r => py_str_eq (status r) "Pass") selected)) in
       let durations := non_null (map duration selected) in
       total = Z.of_nat (List.length selected)
       /\ (total = 0 -> rate = 0%Q)
       /\ (0 < total ->
           rate = (inject_Z successes / inject_Z total * 100)%Q)
       /\ (durations = [] -> avg = 0%Q)
       /\ (durations <> [] ->
           avg = (Qsum durations
                  / inject_Z (Z.of_nat (List.length durations)))%Q).
Proof.
  intros Hsince Hyear.
  pose proof (sub_days_valid _ _ _ (Hclock (tick w)) Hsince Hyear) as Hvalid.
  set (in_window := fun r =>
         SQLite.holds (SQLite.ge (execution_date r)
                         (Some (Datetime.strftime since)))).
  set (selected := filter in_window (rows w)).
  set (durations := non_null (map duration selected)).
  set (total := Z.of_nat (List.length selected)).
  exists in_window, total,
    (if total =? 0 then 0%Q
     else (inject_Z (Z.of_nat (List.length
              (filter (fun r => py_str_eq (status r) "Pass") selected)))
           / inject_Z total * 100)%Q),
    (match durations with
     | [] => 0%Q
     | _ => (Qsum durations / inject_Z (Z.of_nat (List.length durations)))%Q
     end).
  split; [|split].
  - unfold get_kpis, days_ago, bind, now, get_rows, ret, raise, mean, truediv.
    cbn [tick rows seq]. rewrite Hsince. cbn [tick rows seq].
    fold in_window. fold selected. fold durations. fold total.
    destruct durations as [|d durations']; destruct (total =? 0); reflexivity.
  - intros r t [Ht Hr]. unfold in_window. rewrite Hr.
    cbn [SQLite.ge SQLite.holds].
    rewrite strftime_leb by assumption.
    destruct (Datetime.leb since t); reflexivity.
  - cbv zeta. fold selected. fold durations. fold total.
    split; [reflexivity|]. split; [|split; [|split]].
    + intros ->. reflexivity.
    + intros Hpos. destruct (Z.eqb_spec total 0); [lia | reflexivity].
    + intros ->. reflexivity.
    + intros Hne. destruct durations; [contradiction | reflexivity].
Qed.

(** The KPIs of the last 7 days of [Demo.history]: three rows, two of them
    passed, mean duration 12. *)
Lemma get_kpis_over_window_witness :
  exists rate avg w',
    get_kpis (env := Demo.demo_env) None Demo.history_world
    = (Ret (3, rate, avg), w')
    /\ (rate == 200 # 3)%Q /\ (avg == 12)%Q.
Proof.
  destruct (get_kpis_over_window (env := Demo.demo_env) demo_clock_valid None
              Demo.history_world (mkdt 2024 3 8 12 0 0) eq_refl
              ltac:(cbn; lia))
    as (in_window & total & rate & avg & Hrun & _ & _).
  pose proof Hrun as Hc. vm_compute in Hc. injection Hc as Ht Hr Ha.
  subst total rate avg.
  eexists _, _, _. split; [exact Hrun|]. split; reflexivity.
Defined.

(** A threshold of 400000 days lies in year 929 and is written
    [929-01-15 12:00:00], a text above every stored date: the sweep removes
    every row though none was stored before the threshold. *)
Lemma delete_old_tests_early_threshold_removes_all :
  Datetime.sub_days (clock (Env := Demo.demo_env) 0) 400000
  = Some (mkdt 929 1 15 12 0 0)
  /\ map execution_date Demo.history
     = map (fun t => Some (Datetime.strftime t)) Demo.history_times
  /\ forallb (fun t => negb (Datetime.ltb t (mkdt 929 1 15 12 0 0)))
       Demo.history_times = true
  /\ delete_old_tests (env := Demo.demo_env) (Some 400000) Demo.history_world
     = (Ret tt, mkworld [] 4 1).
Proof. repeat split. Qed.

(** C4 (amended).  When the threshold can be computed and lies in a year of
    four digits, [delete_old_tests] keeps the rows of the table that were not
    stored strictly before now minus the days, unchanged and in their order,
    and removes the others. *)
Theorem delete_old_tests_removes_older {env : Env} (Hclock : clock_valid env)
  (days : option Z) (w : world) (threshold : datetime) :
  Datetime.sub_days (clock (tick w)) (match days with Some n => n | None => 10 end)
  = Some threshold ->
  1000 <= year threshold ->
  exists keep,
    delete_old_tests days w
    = (Ret tt, mkworld (filter keep (rows w)) (seq w) (S (tick w)))
    /\ (forall r t, stamped r t -> keep r = negb (Datetime.ltb t threshold))
    /\ (forall r t, stamped r t ->
          (In r (filter keep (rows w))
           <-> In r (rows w) /\ Datetime.ltb t threshold = false)).
Proof.
  intros Hth Hyear.
  pose proof (sub_days_valid _ _ _ (Hclock (tick w)) Hth Hyear) as Hvalid.
  set (keep := fun r =>
         negb (SQLite.holds (SQLite.lt (execution_date r)
                               (Some (Datetime.strftime threshold))))).
  assert (Hkeep : forall r t, stamped r t ->
                    keep r = negb (Datetime.ltb t threshold)).
  { intros r t [Ht Hr]. unfold keep. rewrite Hr.
    cbn [SQLite.lt SQLite.holds].
    rewrite strftime_ltb by assumption.
    destruct (Datetime.ltb t threshold); reflexivity. }
  exists keep. split; [|split].
  - unfold delete_old_tests, days_ago, bind, now, get_rows, set_rows, ret.
    cbn [tick rows seq]. rewrite Hth. reflexivity.
  - exact Hkeep.
  - intros r t Hst. rewrite filter_In, (Hkeep r t Hst), negb_true_iff.
    reflexivity.
Qed.

(** With a threshold of 10 days the row that is 20 days old goes and the
    row that is 1 day old stays. *)
Lemma delete_old_tests_removes_older_witness :
  exists w',
    delete_old_tests (env := Demo.demo_env) (Some 10) Demo.history_world
    = (Ret tt, w')
    /\ map id (rows w') = [2; 3; 4]
    /\ ~ In (nth 0 Demo.history (mkrow 0 None None None None)) (rows w')
    /\ In (nth 2 Demo.history (mkrow 0 None None None None)) (rows w').
Proof.
  destruct (delete_old_tests_removes_older (env := Demo.demo_env)
              demo_clock_valid (Some 10) Demo.history_world
              (mkdt 2024 3 5 12 0 0) eq_refl ltac:(cbn; lia))
    as (keep & Hrun & Hkeep & Hin).
  eexists. split; [exact Hrun|]. cbn [rows].
  assert (H1 : keep (nth 0 Demo.history (mkrow 0 None None None None)) = false).
  { apply (Hkeep _ (mkdt 2024 2 24 12 0 0)). split; reflexivity. }
  assert (H2 : keep (nth 1 Demo.history (mkrow 0 None None None None)) = true).
  { apply (Hkeep _ (mkdt 2024 3 10 9 30 0)). split; reflexivity. }
  assert (H3 : keep (nth 2 Demo.history (mkrow 0 None None None None)) = true).
  { apply (Hkeep _ (mkdt 2024 3 14 12 0 0)). split; reflexivity. }
  assert (H4 : keep (nth 3 Demo.history (mkrow 0 None None None None)) = true).
  { apply (Hkeep _ (mkdt 2024 3 14 18 0 0)). split; reflexivity. }
  cbn [nth Demo.history] in H1, H2, H3, H4.
  unfold Demo.history_world, Demo.history. cbn [rows filter nth].
  rewrite H1, H2, H3, H4. cbn [map id].
  split; [reflexivity|]. split.
  - intros [H|[H|[H|[]]]]; discriminate H.
  - right. left. reflexivity.
Defined.

(** ** The search of the history: LIKE *)

Lemma like_match_percent (p s : string) :
  SQLite.like_match (String "%" p) s
  = SQLite.like_match p s
    || match s with
       | EmptyString => false
       | String _ s' => SQLite.like_match (String "%" p) s'
       end.
Proof. destruct s; reflexivity. Qed.

Lemma like_match_char (c : ascii) (p s : string) :
  Ascii.eqb c "%" = false ->
  SQLite.like_match (String c p) s
  = match s with
    | EmptyString => false
    | String a s' =>
        (Ascii.eqb c "_" || SQLite.char_eq_nocase c a) && SQLite.like_match p s'
    end.
Proof. intros H. cbn [SQLite.like_match]. rewrite H. reflexivity. Qed.

Lemma like_match_empty (s : string) :
  SQLite.like_match "" s = true <-> s = "".
Proof. destruct s; cbn; split; congruence. Qed.

Lemma append_empty_inv (a b : string) : a ++ b = "" -> a = "" /\ b = "".
Proof. destruct a; cbn; [intros ->; split; reflexivity | discriminate]. Qed.

Lemma like_match_star (p : string) : forall s,
  SQLite.like_match (String "%" p) s = true
  <-> exists a b, s = a ++ b /\ SQLite.like_match p b = true.
Proof.
  induction s as [|c s IH]; rewrite like_match_percent, orb_true_iff.
  - split.
    + intros [H|H]; [|discriminate]. exists "", "". split; [reflexivity|exact H].
    + intros (a & b & Hs & H). symmetry in Hs.
      apply append_empty_inv in Hs. destruct Hs as [-> ->]. left. exact H.
  - split.
    + intros [H|H].
      * exists "", (String c s). split; [reflexivity|exact H].
      * apply IH in H. destruct H as (a & b & -> & H).
        exists (String c a), b. split; [reflexivity|exact H].
    + intros (a & b & Hs & H). destruct a as [|x a]; cbn in Hs.
      * subst b. left. exact H.
      * injection Hs as <- ->. right. apply IH. exists a, b.
        split; [reflexivity|exact H].
Qed.

Lemma like_match_app (p q : string) : forall s,
  SQLite.like_match (p ++ q) s = true
  <-> exists a b, s = a ++ b /\ SQLite.like_match p a = true
                  /\ SQLite.like_match q b = true.
Proof.
  induction p as [|c p IH]; intros s.
  - cbn [String.append]. split.
    + intros H. exists "", s. repeat split; assumption.
    + intros (a & b & -> & Ha & Hb). apply like_match_empty in Ha. subst a.
      exact Hb.
  - cbn [String.append]. destruct (Ascii.eqb c "%") eqn:Hc.
    + apply Ascii.eqb_eq in Hc. subst c. rewrite like_match_star. split.
      * intros (x & y & -> & H). apply IH in H.
        destruct H as (a & b & -> & Ha & Hb).
        exists (x ++ a), b. rewrite append_assoc. repeat split; try assumption.
        apply like_match_star. exists x, a. split; [reflexivity|exact Ha].
      * intros (a & b & -> & Ha & Hb). apply like_match_star in Ha.
        destruct Ha as (x & y & -> & Hy).
        exists x, (y ++ b). rewrite append_assoc. split; [reflexivity|].
        apply IH. exists y, b. repeat split; assumption.
    + rewrite like_match_char by exact Hc. destruct s as [|x s].
      * split; [discriminate|]. intros (a & b & Hs & Ha & _).
        symmetry in Hs. apply append_empty_inv in Hs. destruct Hs as [-> ->].
        rewrite like_match_char in Ha by exact Hc. discriminate.
      * rewrite andb_true_iff, IH. split.
        -- intros (Hx & a & b & -> & Ha & Hb).
           exists (String x a), b. repeat split; try assumption.
           rewrite like_match_char by exact Hc. now rewrite Hx, Ha.
        -- intros (a & b & Hs & Ha & Hb).
           rewrite like_match_char in Ha by exact Hc.
           destruct a as [|x' a]; [discriminate|].
           cbn in Hs. injection Hs as -> ->.
           apply andb_true_iff in Ha. destruct Ha as [Hx Ha].
           split; [exact Hx|]. exists a, b. repeat split; assumption.
Qed.

Lemma like_match_any (s : string) : SQLite.like_match "%" s = true.
Proof.
  apply like_match_star. exists s, "". rewrite append_empty_r.
  split; reflexivity.
Qed.

(** [%search%] matches a text when some part of the text matches
    [search]. *)
Lemma like_match_wrapped (search s : string) :
  SQLite.like_match ("%" ++ search ++ "%") s = true
  <-> exists a b c, s = a ++ b ++ c /\ SQLite.like_match search b = true.
Proof.
  cbn [String.append]. rewrite like_match_star. split.
  - intros (a & y & -> & H). apply like_match_app in H.
    destruct H as (b & c & -> & Hb & _). exists a, b, c.
    split; [reflexivity|exact Hb].
  - intros (a & b & c & -> & Hb). exists a, (b ++ c). split; [reflexivity|].
    apply like_match_app. exists b, c. repeat split; try assumption.
    apply like_match_any.
Qed.

(** A pattern matches itself, whatever its characters. *)
Lemma like_match_self (p : string) : SQLite.like_match p p = true.
Proof.
  induction p as [|c p IH]; [reflexivity|].
  destruct (Ascii.eqb c "%") eqn:Hc.
  - apply Ascii.eqb_eq in Hc. subst c. apply like_match_star.
    exists "%", p. split; [reflexivity|exact IH].
  - rewrite like_match_char by exact Hc. rewrite IH.
    unfold SQLite.char_eq_nocase. rewrite Ascii.eqb_refl.
    now rewrite orb_true_r.
Qed.


Lemma fold_case_app (a b : string) :
  SQLite.fold_case (a ++ b) = SQLite.fold_case a ++ SQLite.fold_case b.
Proof. induction a as [|x a IH]; cbn; [reflexivity | now rewrite IH]. Qed.





(** ** The order of the history: ORDER BY and LIMIT *)

Lemma trans3_lex (a1 a2 a3 b1 b2 b3 : comparison) :
  trans3 a1 a2 a3 -> trans3 b1 b2 b3 ->
  trans3 (Datetime.lex a1 b1) (Datetime.lex a2 b2) (Datetime.lex a3 b3).
Proof.
  destruct a1, a2, a3, b1, b2, b3; cbn; intros; congruence || exact I.
Qed.

Lemma ascii_compare_trans3 (x y z : ascii) :
  trans3 (Ascii.compare x y) (Ascii.compare y z) (Ascii.compare x z).
Proof.
  unfold Ascii.compare.
  destruct (N.compare_spec (N_of_ascii x) (N_of_ascii y));
    destruct (N.compare_spec (N_of_ascii y) (N_of_ascii z));
    destruct (N.compare_spec (N_of_ascii x) (N_of_ascii z));
    cbn; trivial; lia.
Qed.

Lemma string_compare_trans3 (a : string) : forall b c,
  trans3 (String.compare a b) (String.compare b c) (String.compare a c).
Proof.
  induction a as [|x a IH]; intros [|y b] [|z c];
    cbn [String.compare]; try (cbn; trivial; fail).
  - destruct (match Ascii.compare y z with
              | Eq => String.compare b c
              | ne => ne
              end); cbn; trivial.
  - destruct (match Ascii.compare x y with
              | Eq => String.compare a b
              | ne => ne
              end); cbn; trivial.
  - exact (trans3_lex _ _ _ _ _ _ (ascii_compare_trans3 x y z) (IH b c)).
Qed.

Lemma compare_value_trans3 (x y z : option string) :
  trans3 (SQLite.compare_value x y) (SQLite.compare_value y z)
         (SQLite.compare_value x z).
Proof.
  destruct x as [a|], y as [b|], z as [c|]; cbn; trivial;
    try apply string_compare_trans3;
    destruct (String.compare _ _); cbn; trivial.
Qed.

Lemma compare_value_antisym (x y : option string) :
  SQLite.compare_value x y = CompOpp (SQLite.compare_value y x).
Proof.
  destruct x as [a|], y as [b|]; cbn; trivial. apply String.compare_antisym.
Qed.

Section OrderByFacts.
Context {A : Type} (key : A -> option string).

(** [a] may come before [b] in descending order. *)
Let geq (a b : A) : Prop := SQLite.value_ltb (key a) (key b) = false.

Lemma geq_trans (a b c : A) : geq a b -> geq b c -> geq a c.
Proof.
  unfold geq, SQLite.value_ltb.
  pose proof (compare_value_trans3 (key a) (key b) (key c)) as H.
  destruct (SQLite.compare_value (key a) (key b)),
           (SQLite.compare_value (key b) (key c)),
           (SQLite.compare_value (key a) (key c));
    cbn in H; intros; congruence.
Qed.

Lemma ltb_geq (a b : A) :
  SQLite.value_ltb (key a) (key b) = true -> geq b a.
Proof.
  unfold geq, SQLite.value_ltb. rewrite (compare_value_antisym (key b)).
  destruct (SQLite.compare_value (key a) (key b)); cbn; congruence.
Qed.

Lemma insert_desc_perm (x : A) (l : list A) :
  Permutation (SQLite.insert_desc key x l) (x :: l).
Proof.
  induction l as [|y l IH]; cbn; [reflexivity|].
  destruct (SQLite.value_ltb (key x) (key y)); [|reflexivity].
  rewrite IH. apply perm_swap.
Qed.

Lemma order_by_desc_perm (l : list A) :
  Permutation (SQLite.order_by_desc key l) l.
Proof.
  induction l as [|x l IH]; cbn; [reflexivity|].
  fold (SQLite.order_by_desc key l). rewrite insert_desc_perm.
  now constructor.
Qed.

Lemma insert_desc_sorted (x : A) (l : list A) :
  StronglySorted geq l -> StronglySorted geq (SQLite.insert_desc key x l).
Proof.
  induction 1 as [|y l Hl IH Hy]; cbn.
  - repeat constructor.
  - destruct (SQLite.value_ltb (key x) (key y)) eqn:Hxy.
    + constructor; [exact IH|].
      apply Forall_forall. intros z Hz.
      apply (Permutation_in _ (insert_desc_perm x l)) in Hz.
      destruct Hz as [<-|Hz]; [now apply ltb_geq|].
      rewrite Forall_forall in Hy. now apply Hy.
    + constructor; [now constructor|].
      constructor; [exact Hxy|].
      apply Forall_forall. intros z Hz. rewrite Forall_forall in Hy.
      apply (geq_trans x y z); [exact Hxy | now apply Hy].
Qed.

Lemma order_by_desc_sorted (l : list A) :
  StronglySorted geq (SQLite.order_by_desc key l).
Proof.
  induction l as [|x l IH]; cbn; [constructor|].
  now apply insert_desc_sorted.
Qed.
End OrderByFacts.

Lemma firstn_In {A : Type} (n : nat) : forall (l : list A) (x : A),
  In x (firstn n l) -> In x l.
Proof.
  induction n as [|n IH]; intros [|y l] x; cbn; try contradiction.
  intros [H|H]; [now left | right; now apply IH].
Qed.

Lemma StronglySorted_firstn {A : Type} (R : A -> A -> Prop) (n : nat) :
  forall l, StronglySorted R l -> StronglySorted R (firstn n l).
Proof.
  induction n as [|n IH]; intros l Hl; [constructor|].
  destruct l as [|x l]; [constructor|]. cbn.
  apply StronglySorted_inv in Hl. destruct Hl as [Hl Hx].
  constructor; [now apply IH|].
  rewrite Forall_forall in *. intros y Hy. apply Hx.
  now apply firstn_In in Hy.
Qed.

Lemma StronglySorted_impl {A : Type} (R R' : A -> A -> Prop) (l : list A) :
  (forall a b, R a b -> R' a b) -> StronglySorted R l -> StronglySorted R' l.
Proof.
  intros HR. induction 1 as [|x l Hl IH Hx]; constructor; [exact IH|].
  rewrite Forall_forall in *. intros y Hy. now apply HR, Hx.
Qed.

Lemma limit_sorted {A : Type} (R : A -> A -> Prop) (n : Z) (l : list A) :
  StronglySorted R l -> StronglySorted R (SQLite.limit n l).
Proof.
  intros Hl. unfold SQLite.limit.
  destruct (n <? 0); [exact Hl | now apply StronglySorted_firstn].
Qed.

Lemma limit_length {A : Type} (n : Z) (l : list A) :
  0 <= n -> Z.of_nat (List.length (SQLite.limit n l)) <= n.
Proof.
  intros Hn. unfold SQLite.limit.
  destruct (Z.ltb_spec n 0); [lia|].
  rewrite length_firstn. lia.
Qed.

Lemma limit_incl {A : Type} (n : Z) (l : list A) (x : A) :
  In x (SQLite.limit n l) -> In x l.
Proof.
  unfold SQLite.limit. destruct (n <? 0); [trivial|]. apply firstn_In.
Qed.

Lemma limit_all {A : Type} (n : Z) (l : list A) :
  n < 0 \/ Z.of_nat (List.length l) <= n -> SQLite.limit n l = l.
Proof.
  intros H. unfold SQLite.limit. destruct (Z.ltb_spec n 0); [reflexivity|].
  apply firstn_all2. lia.
Qed.

Lemma get_recent_tests_eq {df : SQLite.DateFunctions}
  (limit : option Z) (search : option string) (w : world) :
  get_recent_tests limit search w
  = (Ret (SQLite.limit
            (match limit with Some n => n | None => 50 end)
            (SQLite.order_by_desc
               (fun r => SQLite.datetime_fn (execution_date r))
               (match search with
                | None | Some EmptyString => rows w
                | Some s =>
                    filter (fun r => SQLite.holds (search_where s r)) (rows w)
                end))),
     w).
Proof. reflexivity. Qed.

(** With the date functions right on stored timestamps, descending keys
    are descending times. *)
Lemma key_order_chronological {df : SQLite.DateFunctions}
  (Hdf : SQLite.stamp_dates df) (a b : row) :
  SQLite.value_ltb (SQLite.datetime_fn (execution_date a))
                   (SQLite.datetime_fn (execution_date b)) = false ->
  not_older a b.
Proof.
  intros H ta tb [Hta Ha] [Htb Hb]. rewrite Ha, Hb in H.
  destruct (Hdf ta Hta) as [Ea _]. destruct (Hdf tb Htb) as [Eb _].
  rewrite Ea, Eb in H. unfold SQLite.value_ltb in H.
  cbn [SQLite.compare_value] in H.
  unfold Datetime.leb. rewrite <- strftime_compare by assumption.
  rewrite String.compare_antisym.
  destruct (String.compare (Datetime.strftime ta) (Datetime.strftime tb));
    cbn; congruence.
Qed.

Lemma holds_like (col col' : option string) (p : string) :
  SQLite.holds (SQLite.or3 (SQLite.like col (Some p)) (SQLite.like col' (Some p)))
  = SQLite.holds (SQLite.like col (Some p))
    || SQLite.holds (SQLite.like col' (Some p)).
Proof.
  destruct col as [a|], col' as [b|]; cbn [SQLite.like SQLite.or3 SQLite.holds];
    repeat match goal with
           | |- context [SQLite.like_match ?p ?x] =>
               destruct (SQLite.like_match p x)
           end; reflexivity.
Qed.

Lemma search_where_parts (search : string) (r : row) :
  SQLite.holds (search_where search r) = true
  <-> part_matches search (test_name r) \/ part_matches search (status r).
Proof.
  unfold search_where. rewrite holds_like, orb_true_iff.
  assert (H : forall col,
             SQLite.holds (SQLite.like col (Some ("%" ++ search ++ "%"))) = true
             <-> part_matches search col).
  { intros [x|]; unfold part_matches; cbn [SQLite.like SQLite.holds].
    - split.
      + intros H. destruct (SQLite.like_match _ x) eqn:E; [|discriminate].
        apply like_match_wrapped in E. destruct E as (a & b & c & -> & Hb).
        exists a, b, c. split; [reflexivity|exact Hb].
      + intros (a & b & c & Hx & Hb). injection Hx as ->.
        assert (E : SQLite.like_match ("%" ++ search ++ "%") (a ++ b ++ c)
                    = true).
        { apply like_match_wrapped. exists a, b, c. split; [reflexivity|exact Hb]. }
        now rewrite E.
    - split; [discriminate|]. intros (a & b & c & Hx & _). discriminate. }
  now rewrite !H.
Qed.



Lemma demo_dates_stamp : SQLite.stamp_dates Demo.demo_dates.
Proof.
  intros t Ht. split; [reflexivity|]. apply valid_fields in Ht.
  cbn [SQLite.date_fn Demo.demo_dates option_map]. f_equal.
  unfold Datetime.strftime, Datetime.strftime_date.
  rewrite year_text_valid by lia. reflexivity.
Qed.







Lemma StronglySorted_firstn_skipn {A : Type} (R : A -> A -> Prop) (n : nat) :
  forall l, StronglySorted R l ->
  forall a b, In a (firstn n l) -> In b (skipn n l) -> R a b.
Proof.
  induction n as [|n IH]; intros l Hl a b Ha Hb; [contradiction|].
  destruct l as [|x l]; [contradiction|]. cbn in Ha, Hb.
  apply StronglySorted_inv in Hl. destruct Hl as [Hl Hx].
  destruct Ha as [<-|Ha]; [|now apply (IH l)].
  rewrite Forall_forall in Hx. apply Hx.
  rewrite <- (firstn_skipn n l). apply in_or_app. now right.
Qed.

(** A limit of -1: all four rows of [Demo.history] come back, more than the
    limit. *)
Lemma get_recent_tests_negative_limit :
  get_recent_tests (df := Demo.demo_dates) (Some (-1)) None Demo.history_world
  = (Ret (rev Demo.history), Demo.history_world)
  /\ List.length (rev Demo.history) = 4%nat
  /\ ~ Z.of_nat (List.length (rev Demo.history)) <= -1.
Proof.
  split; [reflexivity|]. split; [reflexivity|]. cbn. lia.
Qed.

(** C8 (amended).  For a limit that is not negative and that SQLite takes
    as an integer, and a search whose pattern LIKE takes,
    [get_recent_tests] returns at most that many rows, no row before a row
    that was stored later: they are the first rows of the selected rows put
    latest first, so no selected row that is left out was stored later than
    a row that is returned.  A limit left out is 50. *)
Theorem get_recent_tests_limit_and_order {df : SQLite.DateFunctions}
  (Hdf : SQLite.stamp_dates df)
  (limit : option Z) (search : option string) (w : world) :
  0 <= match limit with Some n => n | None => 50 end ->
  SQLite.int64 (match limit with Some n => n | None => 50 end) = true ->
  search_ok search = true ->
  exists result sorted,
    get_recent_tests limit search w = (Ret result, w)
    /\ Z.of_nat (List.length result)
       <= match limit with Some n => n | None => 50 end
    /\ StronglySorted not_older result
    /\ Permutation sorted (selected search w)
    /\ StronglySorted not_older sorted
    /\ result
       = firstn (Z.to_nat (match limit with Some n => n | None => 50 end))
           sorted
    /\ (forall a b, In a result -> In b (selected search w) ->
          ~ In b result -> not_older a b)
    /\ get_recent_tests None search w = get_recent_tests (Some 50) search w.
Proof.
  intros Hlim Hint Hsearch. rewrite get_recent_tests_eq.
  set (lim := match limit with Some n => n | None => 50 end) in *.
  fold (selected search w).
  set (sorted := SQLite.order_by_desc
                   (fun r => SQLite.datetime_fn (execution_date r))
                   (selected search w)).
  assert (Hsorted : StronglySorted not_older sorted).
  { eapply StronglySorted_impl; [|apply order_by_desc_sorted].
    intros a b. apply (key_order_chronological Hdf). }
  assert (Hcut : SQLite.limit lim sorted = firstn (Z.to_nat lim) sorted).
  { unfold SQLite.limit. destruct (Z.ltb_spec lim 0); [lia | reflexivity]. }
  exists (SQLite.limit lim sorted), sorted.
  split; [reflexivity|]. split; [now apply limit_length|].
  split; [now apply limit_sorted|].
  split; [apply order_by_desc_perm|]. split; [exact Hsorted|].
  split; [exact Hcut|]. split; [|reflexivity].
  intros a b Ha Hb Hnb. rewrite Hcut in Ha, Hnb.
  apply (StronglySorted_firstn_skipn not_older (Z.to_nat lim) sorted Hsorted);
    [exact Ha|].
  apply (Permutation_in _ (Permutation_sym (order_by_desc_perm
           (fun r => SQLite.datetime_fn (execution_date r))
           (selected search w)))) in Hb.
  fold sorted in Hb. rewrite <- (firstn_skipn (Z.to_nat lim) sorted) in Hb.
  apply in_app_or in Hb. destruct Hb as [Hb|Hb]; [contradiction | exact Hb].
Qed.

Lemma get_recent_tests_limit_and_order_witness :
  exists result,
    get_recent_tests (df := Demo.demo_dates) (Some 2) None Demo.history_world
    = (Ret result, Demo.history_world)
    /\ map id result = [4; 3]
    /\ StronglySorted not_older result.
Proof.
  destruct (get_recent_tests_limit_and_order (df := Demo.demo_dates)
              demo_dates_stamp (Some 2) None Demo.history_world
              ltac:(cbn; lia) eq_refl eq_refl)
    as (result & sorted & Hrun & _ & Hsorted & _).
  exists result. split; [exact Hrun|]. split; [|exact Hsorted].
  vm_compute in Hrun. injection Hrun as <-. reflexivity.
Defined.

(** C10.  The empty string as the search is no search: the call is the
    call without a search, and returns the rows of the whole table, latest
    first, cut at the limit. *)
Theorem get_recent_tests_empty_search {df : SQLite.DateFunctions}
  (limit : option Z) (w : world) :
  get_recent_tests limit (Some "") w = get_recent_tests limit None w
  /\ get_recent_tests limit (Some "") w
     = (Ret (SQLite.limit
               (match limit with Some n => n | None => 50 end)
               (SQLite.order_by_desc
                  (fun r => SQLite.datetime_fn (execution_date r)) (rows w))),
        w).
Proof. split; reflexivity. Qed.

(** ** The daily trend: GROUP BY *)

Lemma compare_value_eq (x y : option string) :
  SQLite.compare_value x y = Eq <-> x = y.
Proof.
  destruct x as [a|], y as [b|]; cbn; split; try congruence.
  - intros H. apply String.compare_eq_iff in H. now subst.
  - intros H. injection H as ->.
    pose proof (String.compare_antisym b b) as E.
    destruct (String.compare b b); cbn in E; congruence.
Qed.

Lemma insert_group_In (k x : option string) (l : list (option string)) :
  In x (SQLite.insert_group k l) <-> x = k \/ In x l.
Proof.
  induction l as [|y l IH]; cbn.
  - intuition.
  - destruct (SQLite.compare_value k y) eqn:E; cbn.
    + apply compare_value_eq in E. subst y. intuition.
    + intuition.
    + rewrite IH. intuition.
Qed.

Lemma groups_In (x : option string) (keys : list (option string)) :
  In x (SQLite.groups keys) <-> In x keys.
Proof.
  induction keys as [|k keys IH]; cbn; [reflexivity|].
  fold (SQLite.groups keys). rewrite insert_group_In, IH. intuition.
Qed.

Lemma value_ltb_trans (x y z : option string) :
  SQLite.value_ltb x y = true -> SQLite.value_ltb y z = true ->
  SQLite.value_ltb x z = true.
Proof.
  unfold SQLite.value_ltb. pose proof (compare_value_trans3 x y z) as H.
  destruct (SQLite.compare_value x y), (SQLite.compare_value y z),
           (SQLite.compare_value x z); cbn in H; intros; congruence.
Qed.

Lemma insert_group_sorted (k : option string) (l : list (option string)) :
  StronglySorted (fun a b => SQLite.value_ltb a b = true) l ->
  StronglySorted (fun a b => SQLite.value_ltb a b = true)
                 (SQLite.insert_group k l).
Proof.
  induction 1 as [|y l Hl IH Hy]; cbn.
  - repeat constructor.
  - destruct (SQLite.compare_value k y) eqn:E.
    + now constructor.
    + assert (Hky : SQLite.value_ltb k y = true)
        by (unfold SQLite.value_ltb; now rewrite E).
      constructor; [now constructor|].
      constructor; [exact Hky|].
      rewrite Forall_forall in *. intros z Hz.
      apply (value_ltb_trans k y z); [exact Hky | now apply Hy].
    + constructor; [exact IH|].
      rewrite Forall_forall in *. intros z Hz.
      apply insert_group_In in Hz. destruct Hz as [->|Hz]; [|now apply Hy].
      unfold SQLite.value_ltb. rewrite compare_value_antisym, E. reflexivity.
Qed.

Lemma groups_sorted (keys : list (option string)) :
  StronglySorted (fun a b => SQLite.value_ltb a b = true) (SQLite.groups keys).
Proof.
  induction keys as [|k keys IH]; cbn; [constructor|].
  now apply insert_group_sorted.
Qed.

Lemma StronglySorted_map {A B : Type} (g : A -> B)
  (R : A -> A -> Prop) (R' : B -> B -> Prop) (l : list A) :
  (forall a b, R a b -> R' (g a) (g b)) ->
  StronglySorted R l -> StronglySorted R' (map g l).
Proof.
  intros HR. induction 1 as [|x l Hl IH Hx]; cbn; constructor; [exact IH|].
  rewrite Forall_forall in *. intros y Hy. apply in_map_iff in Hy.
  destruct Hy as (a & <- & Ha). now apply HR, Hx.
Qed.

Lemma sum_case_count {A : Type} (c : A -> option bool) (l : list A) :
  SQLite.sum_case c l
  = Z.of_nat (List.length (filter (fun r => SQLite.holds (c r)) l)).
Proof.
  induction l as [|x l IH]; cbn; [reflexivity|].
  fold (SQLite.sum_case c l). rewrite IH.
  destruct (SQLite.holds (c x)); cbn [List.length]; lia.
Qed.

Lemma filter_filter {A : Type} (f g : A -> bool) (l : list A) :
  filter f (filter g l) = filter (fun x => g x && f x) l.
Proof.
  induction l as [|x l IH]; cbn; [reflexivity|].
  destruct (g x); cbn; [destruct (f x)|]; now rewrite IH.
Qed.

Lemma strftime_date_compare (a b : datetime) :
  Datetime.valid a = true -> Datetime.valid b = true ->
  String.compare (Datetime.strftime_date a) (Datetime.strftime_date b)
  = Datetime.lex (year a ?= year b)
      (Datetime.lex (month a ?= month b) (day a ?= day b)).
Proof.
  intros Ha Hb.
  apply valid_fields in Ha. apply valid_fields in Hb.
  unfold Datetime.strftime_date.
  rewrite !year_text_valid by lia.
  repeat (rewrite compare_pad by (simpl; lia);
          try (cbn [String.append]; rewrite compare_sep)).
  f_equal. f_equal.
  rewrite <- (append_empty_r (Datetime.pad 2 (day a))).
  rewrite <- (append_empty_r (Datetime.pad 2 (day b))).
  rewrite compare_pad by (simpl; lia).
  destruct (day a ?= day b); reflexivity.
Qed.

Lemma strftime_date_same (a b : datetime) :
  Datetime.valid a = true -> Datetime.valid b = true ->
  SQLite.value_eqb (Some (Datetime.strftime_date a))
                   (Some (Datetime.strftime_date b))
  = same_date a b.
Proof.
  intros Ha Hb. unfold SQLite.value_eqb, same_date.
  cbn [SQLite.compare_value]. rewrite strftime_date_compare by assumption.
  destruct (Z.compare_spec (year a) (year b));
    destruct (Z.compare_spec (month a) (month b));
    destruct (Z.compare_spec (day a) (day b)); cbn [Datetime.lex];
    repeat match goal with
           | |- context [?x =? ?y] => destruct (Z.eqb_spec x y)
           end; cbn; trivial; lia.
Qed.

Lemma daily_trend_eq {df : SQLite.DateFunctions} (w : world) :
  daily_trend w
  = (Ret (map
            (fun k =>
               let g :=
                 filter (fun r => SQLite.value_eqb
                                    (SQLite.date_fn (execution_date r)) k)
                        (rows w) in
               (k,
                SQLite.sum_case
                  (fun r => SQLite.eq (status r) (Some "Pass")) g,
                SQLite.sum_case
                  (fun r => SQLite.eq (status r) (Some "Fail")) g))
            (SQLite.groups
               (map (fun r => SQLite.date_fn (execution_date r)) (rows w)))),
     w).
Proof. reflexivity. Qed.

Lemma holds_eq_status (r : row) (lit : string) :
  SQLite.holds (SQLite.eq (status r) (Some lit)) = py_str_eq (status r) lit.
Proof.
  destruct (status r) as [a|]; cbn; [|reflexivity].
  destruct (String.eqb a lit); reflexivity.
Qed.

(** C6.  With the table written by [save_test_result] alone, the daily
    trend has one entry per calendar date on which a row was stored, in
    ascending order of the dates; the entry of a date carries the number of
    rows of that date whose status is [Pass] and the number of those whose
    status is [Fail]. *)
Theorem daily_trend_by_date {df : SQLite.DateFunctions}
  (Hdf : SQLite.stamp_dates df) (w : world) :
  table_wf (rows w) ->
  exists result,
    daily_trend w = (Ret result, w)
    /\ StronglySorted
         (fun x y => SQLite.value_ltb (fst (fst x)) (fst (fst y)) = true)
         result
    /\ (forall r t, In r (rows w) -> stamped r t ->
          exists p f, In (Some (Datetime.strftime_date t), p, f) result)
    /\ (forall d p f, In (d, p, f) result ->
          exists r t on_date,
            In r (rows w) /\ stamped r t
            /\ d = Some (Datetime.strftime_date t)
            /\ (forall r' t', stamped r' t' -> on_date r' = same_date t' t)
            /\ p = Z.of_nat (List.length
                     (filter (fun r' => on_date r' && py_str_eq (status r') "Pass")
                             (rows w)))
            /\ f = Z.of_nat (List.length
                     (filter (fun r' => on_date r' && py_str_eq (status r') "Fail")
                             (rows w)))).
Proof.
  intros Hwf. rewrite daily_trend_eq.
  set (d := fun r => SQLite.date_fn (execution_date r)).
  assert (Hd : forall r t, stamped r t ->
                 d r = Some (Datetime.strftime_date t)).
  { intros r t [Ht Hr]. unfold d. rewrite Hr. now apply Hdf. }
  eexists. split; [reflexivity|]. split; [|split].
  - eapply StronglySorted_map; [|apply groups_sorted].
    intros a b H. exact H.
  - intros r t Hr Hst. eexists _, _. apply in_map_iff.
    exists (Some (Datetime.strftime_date t)). split; [reflexivity|].
    apply groups_In. apply in_map_iff. exists r. split; [|exact Hr].
    now apply Hd.
  - intros d0 p f Hin. apply in_map_iff in Hin.
    destruct Hin as (k & Hk & Hg). cbv zeta in Hk. injection Hk as -> <- <-.
    rewrite groups_In, in_map_iff in Hg.
    destruct Hg as (r & Hrk & Hr).
    unfold table_wf in Hwf. rewrite Forall_forall in Hwf.
    destruct (Hwf r Hr) as [t Hst].
    rewrite (Hd r t Hst) in Hrk. subst d0. fold d.
    exists r, t,
      (fun r' => SQLite.value_eqb (d r') (Some (Datetime.strftime_date t))).
    split; [exact Hr|]. split; [exact Hst|]. split; [reflexivity|].
    split; [|split].
    + intros r' t' Hst'. rewrite (Hd r' t' Hst').
      destruct Hst as [Ht _]. destruct Hst' as [Ht' _].
      now apply strftime_date_same.
    + rewrite sum_case_count, filter_filter. do 2 f_equal.
      apply filter_ext. intros r'. now rewrite holds_eq_status.
    + rewrite sum_case_count, filter_filter. do 2 f_equal.
      apply filter_ext. intros r'. now rewrite holds_eq_status.
Qed.

Lemma trend_rows_wf : table_wf Demo.trend_rows.
Proof.
  repeat constructor.
  - exists (mkdt 2024 1 1 8 0 0). split; reflexivity.
  - exists (mkdt 2024 1 2 9 0 0). split; reflexivity.
  - exists (mkdt 2024 1 1 10 30 0). split; reflexivity.
  - exists (mkdt 2024 1 1 23 59 59). split; reflexivity.
Qed.

(** Rows dated 2024-01-01 (two passes, one failure) and 2024-01-02 (one
    pass). *)
Lemma daily_trend_by_date_witness :
  daily_trend (df := Demo.demo_dates) Demo.trend_world
  = (Ret [(Some "2024-01-01", 2, 1); (Some "2024-01-02", 1, 0)],
     Demo.trend_world).
Proof.
  destruct (daily_trend_by_date (df := Demo.demo_dates) demo_dates_stamp
              Demo.trend_world trend_rows_wf)
    as (result & Hrun & _).
  rewrite Hrun. vm_compute in Hrun. injection Hrun as <-. reflexivity.
Defined.

(** * Further properties of the code *)

(** ** Invariants of the table *)

Lemma run_loop_invariant {env : Env} (P : world -> Prop) (browser : string) :
  (forall file_path w, P w -> P (snd (run_robot_test browser file_path w))) ->
  forall file_paths acc w, P w -> P (snd (run_loop browser file_paths acc w)).
Proof.
  intros Hturn. induction file_paths as [|p rest IH]; intros acc w Hw.
  - exact Hw.
  - cbn [run_loop]. unfold bind at 1.
    specialize (Hturn p w Hw). rewrite run_robot_test_eq in *.
    cbn [snd] in Hturn. now apply IH.
Qed.

Lemma delete_old_tests_eq {env : Env} (days : option Z) (w : world) :
  delete_old_tests days w
  = match Datetime.sub_days (clock (tick w))
            (match days with Some n => n | None => 10 end) with
    | Some t =>
        (Ret tt,
         mkworld
           (filter
              (fun r => negb (SQLite.holds
                                (SQLite.lt (execution_date r)
                                   (Some (Datetime.strftime t)))))
              (rows w))
           (seq w) (S (tick w)))
    | None => (Raise overflow_error, mkworld (rows w) (seq w) (S (tick w)))
    end.
Proof.
  unfold delete_old_tests, days_ago, bind, now, get_rows, set_rows, ret, raise.
  cbn [tick rows seq]. destruct (Datetime.sub_days _ _); reflexivity.
Qed.

Lemma StronglySorted_app {A : Type} (R : A -> A -> Prop) (l1 l2 : list A) :
  StronglySorted R l1 -> StronglySorted R l2 ->
  (forall a b, In a l1 -> In b l2 -> R a b) ->
  StronglySorted R (l1 ++ l2).
Proof.
  intros H1 H2 H12. induction H1 as [|x l1 Hl IH Hx]; cbn; [exact H2|].
  constructor.
  - apply IH. intros a b Ha Hb. apply H12; [now right | exact Hb].
  - rewrite Forall_forall in *. intros y Hy. apply in_app_or in Hy.
    destruct Hy as [Hy|Hy]; [now apply Hx | apply H12; [now left | exact Hy]].
Qed.

Lemma StronglySorted_filter_ids (keep : row -> bool) (l : list row) :
  StronglySorted Z.lt (map id l) ->
  StronglySorted Z.lt (map id (filter keep l)).
Proof.
  induction l as [|x l IH]; cbn; intros H; [constructor|].
  apply StronglySorted_inv in H. destruct H as [Hl Hx].
  destruct (keep x); cbn; [|now apply IH].
  constructor; [now apply IH|].
  rewrite Forall_forall in *. intros y Hy. apply Hx.
  apply in_map_iff in Hy. destruct Hy as (r & <- & Hr).
  apply filter_In in Hr. apply in_map. tauto.
Qed.

Lemma StronglySorted_lt_NoDup (l : list Z) :
  StronglySorted Z.lt l -> NoDup l.
Proof.
  induction 1 as [|x l Hl IH Hx]; constructor; [|exact IH].
  intros Hin. rewrite Forall_forall in Hx. specialize (Hx x Hin). lia.
Qed.

Lemma ids_ok_turn {env : Env} (browser file_path : string) (w : world) :
  ids_ok w -> ids_ok (snd (run_robot_test browser file_path w)).
Proof.
  intros [Hle Hs]. rewrite run_robot_test_eq. cbn [snd]. unfold ids_ok.
  cbn [rows seq].
  assert (Hid : id (turn_row browser file_path (seq w) (tick w)) = seq w + 1).
  { unfold turn_row. destruct (launched _ _ _); reflexivity. }
  split.
  - apply Forall_app. split.
    + eapply Forall_impl; [|exact Hle]. cbn. intros r Hr. lia.
    + constructor; [lia | constructor].
  - rewrite map_app. apply StronglySorted_app; [exact Hs | |].
    + cbn. repeat constructor.
    + intros a b Ha [<-|[]]. rewrite Hid. rewrite Forall_forall in Hle.
      apply in_map_iff in Ha. destruct Ha as (r & <- & Hr).
      specialize (Hle r Hr). cbn in Hle. lia.
Qed.

Lemma seq_run_loop {env : Env} (browser : string) (file_paths : list string)
  (acc : list (string * string * string)) (w : world) :
  seq (snd (run_loop browser file_paths acc w))
  = seq w + Z.of_nat (List.length file_paths).
Proof.
  destruct (run_loop_eq browser file_paths acc w) as (results & new & -> & _).
  reflexivity.
Qed.

Lemma ids_ok_after {env : Env} {df : SQLite.DateFunctions}
  (o : op) (w : world) :
  ids_ok w -> ids_ok (after o w) /\ seq w <= seq (after o w).
Proof.
  intros Hw.
  destruct o as [file_paths browser|days|limit search|days|]; cbn [after].
  - unfold run_robot_tests. split.
    + apply (run_loop_invariant ids_ok); [apply ids_ok_turn | exact Hw].
    + rewrite seq_run_loop. lia.
  - rewrite delete_old_tests_eq.
    destruct (Datetime.sub_days _ _); cbn [snd]; (split; [|cbn; lia]).
    + destruct Hw as [Hle Hs]. split; cbn [rows seq].
      * rewrite Forall_forall in *. intros r Hr.
        apply filter_In in Hr. now apply Hle.
      * now apply StronglySorted_filter_ids.
    + exact Hw.
  - split; [exact Hw | cbn; lia].
  - destruct (get_kpis_run days w) as [x ->]. cbn [snd].
    split; [exact Hw | cbn; lia].
  - split; [exact Hw | cbn; lia].
Qed.

Lemma fresh_ids_turn {env : Env} (w0 : world) (browser file_path : string)
  (w : world) :
  (seq w0 <= seq w
   /\ forall r, In r (rows w) -> In r (rows w0) \/ seq w0 < id r) ->
  let w' := snd (run_robot_test browser file_path w) in
  seq w0 <= seq w'
  /\ forall r, In r (rows w') -> In r (rows w0) \/ seq w0 < id r.
Proof.
  intros [Hseq Hrows]. rewrite run_robot_test_eq. cbn [snd seq rows].
  split; [lia|]. intros r Hr. apply in_app_or in Hr.
  destruct Hr as [Hr|[<-|[]]]; [now apply Hrows|]. right.
  unfold turn_row. destruct (launched _ _ _); cbn [id]; lia.
Qed.

Lemma fresh_ids_after {env : Env} {df : SQLite.DateFunctions}
  (o : op) (w : world) :
  forall r, In r (rows (after o w)) -> In r (rows w) \/ seq w < id r.
Proof.
  destruct o as [file_paths browser|days|limit search|days|]; cbn [after].
  - unfold run_robot_tests.
    apply (run_loop_invariant
             (fun w' => seq w <= seq w'
                        /\ forall r, In r (rows w') ->
                                     In r (rows w) \/ seq w < id r)).
    + intros file_path w' Hw'. now apply fresh_ids_turn.
    + split; [lia|]. intros r Hr. now left.
  - rewrite delete_old_tests_eq.
    destruct (Datetime.sub_days _ _); cbn [snd rows]; intros r Hr.
    + apply filter_In in Hr. left. apply Hr.
    + now left.
  - intros r Hr. now left.
  - rewrite get_kpis_rows. intros r Hr. now left.
  - intros r Hr. now left.
Qed.

(** X1.  Ids ascend in the table and are never given out twice: every
    operation of the page keeps the ids of the table ascending and below
    the counter, never lowers the counter, and gives every row it adds an
    id above the counter as it was, so above every id given out before,
    also the ids of rows that were deleted.  No two rows have the same
    id. *)
Theorem ids_never_reused {env : Env} {df : SQLite.DateFunctions}
  (o : op) (w : world) :
  ids_ok w ->
  ids_ok (after o w)
  /\ seq w <= seq (after o w)
  /\ NoDup (map id (rows (after o w)))
  /\ (forall r, In r (rows (after o w)) -> In r (rows w) \/ seq w < id r).
Proof.
  intros Hw. destruct (ids_ok_after o w Hw) as [H1 H2].
  split; [exact H1|]. split; [exact H2|]. split.
  - apply StronglySorted_lt_NoDup. apply H1.
  - apply fresh_ids_after.
Qed.

Lemma history_ids_ok : ids_ok Demo.history_world.
Proof.
  split; cbn.
  - repeat constructor; cbn; lia.
  - repeat constructor; lia.
Qed.

(** A batch after the sweep of [Demo.history]: the new rows get the ids 5, 6
    and 7, above the counter 4, not the id of the row that went. *)
Lemma ids_never_reused_witness :
  map id (rows (after (env := Demo.demo_env) (df := Demo.demo_dates)
                  (Run Demo.three_files None)
                  (after (env := Demo.demo_env) (df := Demo.demo_dates)
                     (Delete (Some 10)) Demo.history_world)))
  = [2; 3; 4; 5; 6; 7]
  /\ NoDup [2; 3; 4; 5; 6; 7]
  /\ forall r,
       In r (rows (after (env := Demo.demo_env) (df := Demo.demo_dates)
                     (Run Demo.three_files None)
                     (after (env := Demo.demo_env) (df := Demo.demo_dates)
                        (Delete (Some 10)) Demo.history_world))) ->
       In (id r) [2; 3; 4] \/ 4 < id r.
Proof.
  pose proof (ids_never_reused (env := Demo.demo_env) (df := Demo.demo_dates)
                (Delete (Some 10)) Demo.history_world history_ids_ok)
    as (H1 & _ & _ & _).
  pose proof (ids_never_reused (env := Demo.demo_env) (df := Demo.demo_dates)
                (Run Demo.three_files None) _ H1) as (_ & _ & H2 & H3).
  assert (E : map id (rows (after (env := Demo.demo_env) (df := Demo.demo_dates)
                  (Run Demo.three_files None)
                  (after (env := Demo.demo_env) (df := Demo.demo_dates)
                     (Delete (Some 10)) Demo.history_world)))
              = [2; 3; 4; 5; 6; 7]) by (vm_compute; reflexivity).
  rewrite E in H2. split; [exact E|]. split; [exact H2|].
  intros r Hr. destruct (H3 r Hr) as [Hold|Hnew].
  - left.
    assert (Eold : map id (rows (after (env := Demo.demo_env)
                                   (df := Demo.demo_dates)
                                   (Delete (Some 10)) Demo.history_world))
                   = [2; 3; 4]) by (vm_compute; reflexivity).
    rewrite <- Eold. now apply in_map.
  - right. exact Hnew.
Defined.

Lemma status_ok_turn {env : Env} (browser file_path : string) (w : world) :
  Forall status_ok (rows w) ->
  Forall status_ok (rows (snd (run_robot_test browser file_path w))).
Proof.
  intros Hw. rewrite run_robot_test_eq. cbn [snd rows].
  apply Forall_app. split; [exact Hw|]. constructor; [|constructor].
  unfold status_ok, turn_row. destruct (launched _ _ _) as [l rc|e]; cbn.
  - destruct (rc =? 0); [left | right]; reflexivity.
  - right. reflexivity.
Qed.

Lemma status_ok_after {env : Env} {df : SQLite.DateFunctions}
  (o : op) (w : world) :
  Forall status_ok (rows w) -> Forall status_ok (rows (after o w)).
Proof.
  intros Hw.
  destruct o as [file_paths browser|days|limit search|days|]; cbn [after].
  - unfold run_robot_tests.
    apply (run_loop_invariant (fun w => Forall status_ok (rows w)));
      [apply status_ok_turn | exact Hw].
  - rewrite delete_old_tests_eq.
    destruct (Datetime.sub_days _ _); cbn [snd rows]; [|exact Hw].
    rewrite Forall_forall in *. intros r Hr. apply filter_In in Hr.
    now apply Hw.
  - exact Hw.
  - now rewrite get_kpis_rows.
  - exact Hw.
Qed.

Lemma row_ok_after {env : Env} {df : SQLite.DateFunctions}
  (Hclock : clock_valid env) (o : op) (w : world) :
  Forall row_ok (rows w) -> Forall row_ok (rows (after o w)).
Proof.
  intros Hw.
  assert (Hst : Forall status_ok (rows (after o w))).
  { apply status_ok_after. eapply Forall_impl; [|exact Hw].
    intros r Hr. apply Hr. }
  destruct (after_rows Hclock o w) as (keep & new & E & Hnew & _).
  rewrite E in *. rewrite Forall_forall in *.
  intros r Hr. specialize (Hst r Hr).
  apply in_app_or in Hr. destruct Hr as [Hr|Hr].
  - apply filter_In in Hr. now apply Hw.
  - destruct (Hnew r Hr)
      as (name & st & d & n & _ & Hn & _ & Hd & Hd0 & _ & Hdate & _ & _).
    repeat split; try exact Hst.
    + exists (clock n). split; [apply Hclock | exact Hdate].
    + now exists name.
    + now exists d.
Qed.

(** X2.  From the empty table, whatever operations of the page follow one
    another, every row of the table is as the orchestrator writes rows
    (stored at a valid time in [YYYY-MM-DD HH:MM:SS], named, with a duration
    that is not negative and a status [Pass] or [Fail]), and the ids ascend
    below the counter. *)
Theorem table_always_well_formed {env : Env} {df : SQLite.DateFunctions}
  (Hclock : clock_valid env) (ops : list op) :
  let w := run_ops ops (mkworld [] 0 0) in
  Forall row_ok (rows w) /\ table_wf (rows w) /\ ids_ok w.
Proof.
  assert (H : forall w0, Forall row_ok (rows w0) -> ids_ok w0 ->
                Forall row_ok (rows (run_ops ops w0)) /\ ids_ok (run_ops ops w0)).
  { induction ops as [|o ops IH]; intros w0 Hr Hi; [now split|].
    cbn [run_ops]. apply IH.
    - now apply row_ok_after.
    - now apply ids_ok_after. }
  destruct (H (mkworld [] 0 0)) as [Hr Hi].
  - constructor.
  - split; constructor.
  - split; [exact Hr|]. split; [|exact Hi].
    unfold table_wf. eapply Forall_impl; [|exact Hr]. intros r Hrow. apply Hrow.
Qed.

(** A batch, a sweep and another batch from the empty table. *)
Lemma table_always_well_formed_witness :
  let w := run_ops (env := Demo.demo_env) (df := Demo.demo_dates)
             [Run Demo.three_files None; Delete (Some 0);
              Run ["x.robot"] (Some "edge")]
             (mkworld [] 0 0) in
  table_wf (rows w) /\ map id (rows w) = [4].
Proof.
  pose proof (table_always_well_formed (env := Demo.demo_env)
                (df := Demo.demo_dates) demo_clock_valid
                [Run Demo.three_files None; Delete (Some 0);
                 Run ["x.robot"] (Some "edge")]) as (_ & Hwf & _).
  split; [exact Hwf|]. vm_compute. reflexivity.
Defined.

(** ** The history: what is stored is found *)

Lemma filter_true {A : Type} (f : A -> bool) (l : list A) :
  Forall (fun x => f x = true) l -> filter f l = l.
Proof.
  induction 1 as [|x l Hx Hl IH]; cbn; [reflexivity|].
  now rewrite Hx, IH.
Qed.

Lemma filter_length_bound {A : Type} (f : A -> bool) (l : list A) :
  (List.length (filter f l) <= List.length l)%nat.
Proof.
  induction l as [|x l IH]; cbn; [lia|]. destruct (f x); cbn; lia.
Qed.



(** X4.  A stored result is found by its name: after [save_test_result]
    with a name that is not empty and makes a pattern that LIKE takes, the
    history searched for that very name, whatever its characters, with a
    limit that SQLite takes as an integer and that is negative or above the
    size of the table, holds the new row. *)
Theorem saved_row_is_found_by_name {env : Env} {df : SQLite.DateFunctions}
  (name : string) (dur : Q) (st : string) (limit : option Z) (w : world) :
  let lim := match limit with Some n => n | None => 50 end in
  let new := mkrow (seq w + 1) (Some name)
               (Some (Datetime.strftime (clock (tick w)))) (Some dur) (Some st) in
  name <> "" ->
  SQLite.like_pattern_ok ("%" ++ name ++ "%") = true ->
  SQLite.int64 lim = true ->
  lim < 0 \/ Z.of_nat (List.length (rows w)) < lim ->
  exists w1 result,
    save_test_result name dur st w = (Ret tt, w1)
    /\ get_recent_tests limit (Some name) w1 = (Ret result, w1)
    /\ In new result.
Proof.
  intros lim new Hname Hpattern Hint Hlim. rewrite save_test_result_eq.
  fold new.
  eexists _, _. split; [reflexivity|]. rewrite get_recent_tests_eq.
  fold lim. cbn [rows]. split; [reflexivity|].
  destruct name as [|c name']; [contradiction|].
  set (name := String c name') in *.
  rewrite limit_all.
  - apply (Permutation_in _ (Permutation_sym (order_by_desc_perm _ _))).
    apply filter_In. split; [apply in_or_app; right; now left|].
    apply search_where_parts. left. exists "", name, "".
    split; [cbn; now rewrite append_empty_r | apply like_match_self].
  - rewrite (Permutation_length (order_by_desc_perm _ _)).
    pose proof (filter_length_bound
                  (fun r => SQLite.holds (search_where name r))
                  (rows w ++ [new])) as Hle.
    rewrite length_app in Hle. cbn [List.length] in Hle. lia.
Qed.

Lemma saved_row_is_found_by_name_witness :
  exists w1 result,
    save_test_result (env := Demo.demo_env) "50%_off.robot" 3%Q "Fail"
      Demo.history_world
    = (Ret tt, w1)
    /\ get_recent_tests (df := Demo.demo_dates) None (Some "50%_off.robot") w1
       = (Ret result, w1)
    /\ map id result = [5].
Proof.
  destruct (saved_row_is_found_by_name (env := Demo.demo_env)
              (df := Demo.demo_dates) "50%_off.robot" 3%Q "Fail" None
              Demo.history_world ltac:(discriminate) eq_refl eq_refl
              ltac:(right; cbn; lia))
    as (w1 & result & Hsave & Hget & _).
  exists w1, result. split; [exact Hsave|]. split; [exact Hget|].
  vm_compute in Hsave. injection Hsave as <-.
  vm_compute in Hget. injection Hget as <-. reflexivity.
Defined.

(** X5.  Pages of the history agree: for limits that SQLite takes as
    integers and a search whose pattern LIKE takes, the history cut at [n]
    is the first [n] rows of the history cut at any larger limit, and of the
    history under a negative limit. *)
Theorem history_pages_are_prefixes {df : SQLite.DateFunctions}
  (n m : Z) (search : option string) (w : world) :
  SQLite.int64 n = true -> SQLite.int64 m = true ->
  search_ok search = true ->
  0 <= n -> m < 0 \/ n <= m ->
  exists page more,
    get_recent_tests (Some n) search w = (Ret page, w)
    /\ get_recent_tests (Some m) search w = (Ret more, w)
    /\ page = firstn (Z.to_nat n) more.
Proof.
  intros Hin Him Hsearch Hn Hm. rewrite !get_recent_tests_eq.
  eexists _, _. split; [reflexivity|]. split; [reflexivity|].
  unfold SQLite.limit.
  destruct (Z.ltb_spec n 0); [lia|].
  destruct (Z.ltb_spec m 0); [reflexivity|].
  rewrite firstn_firstn. f_equal. lia.
Qed.

Lemma history_pages_are_prefixes_witness :
  exists page more,
    get_recent_tests (df := Demo.demo_dates) (Some 2) None Demo.history_world
    = (Ret page, Demo.history_world)
    /\ get_recent_tests (df := Demo.demo_dates) (Some 3) None Demo.history_world
       = (Ret more, Demo.history_world)
    /\ map id page = [4; 3] /\ map id more = [4; 3; 2].
Proof.
  destruct (history_pages_are_prefixes (df := Demo.demo_dates) 2 3 None
              Demo.history_world eq_refl eq_refl eq_refl
              ltac:(lia) ltac:(right; lia))
    as (page & more & Hp & Hm & _).
  exists page, more. split; [exact Hp|]. split; [exact Hm|].
  vm_compute in Hp. injection Hp as <-.
  vm_compute in Hm. injection Hm as <-. split; reflexivity.
Defined.

(** X6.  A negative limit that SQLite takes as an integer is no limit: the
    history without a search is then the whole table, each row once, in
    another order. *)
Theorem negative_limit_lists_all {df : SQLite.DateFunctions}
  (n : Z) (w : world) :
  SQLite.int64 n = true ->
  n < 0 ->
  exists result,
    get_recent_tests (Some n) None w = (Ret result, w)
    /\ Permutation result (rows w).
Proof.
  intros Hint Hn. rewrite get_recent_tests_eq. eexists.
  split; [reflexivity|].
  rewrite limit_all by (left; exact Hn). apply order_by_desc_perm.
Qed.

Lemma negative_limit_lists_all_witness :
  exists result,
    get_recent_tests (df := Demo.demo_dates) (Some (-1)) None
      Demo.history_world
    = (Ret result, Demo.history_world)
    /\ map id result = [4; 3; 2; 1].
Proof.
  destruct (negative_limit_lists_all (df := Demo.demo_dates) (-1)
              Demo.history_world eq_refl ltac:(lia)) as (result & Hget & _).
  exists result. split; [exact Hget|].
  vm_compute in Hget. injection Hget as <-. reflexivity.
Defined.

(** ** The search: letters, wildcards *)

Lemma lower_percent (c : ascii) :
  Ascii.eqb (SQLite.lower c) "%" = Ascii.eqb c "%".
Proof. destruct c as [[] [] [] [] [] [] [] []]; reflexivity. Qed.

Lemma lower_underscore (c : ascii) :
  Ascii.eqb (SQLite.lower c) "_" = Ascii.eqb c "_".
Proof. destruct c as [[] [] [] [] [] [] [] []]; reflexivity. Qed.

Lemma lower_lower (c : ascii) : SQLite.lower (SQLite.lower c) = SQLite.lower c.
Proof. destruct c as [[] [] [] [] [] [] [] []]; reflexivity. Qed.

Lemma like_match_fold_case (p : string) : forall s,
  SQLite.like_match (SQLite.fold_case p) s = SQLite.like_match p s.
Proof.
  induction p as [|c p IH]; intros s; [reflexivity|].
  cbn [SQLite.fold_case]. destruct (Ascii.eqb c "%") eqn:Hc.
  - assert (Hl : SQLite.lower c = "%"%char).
    { apply Ascii.eqb_eq. now rewrite lower_percent. }
    apply Ascii.eqb_eq in Hc. rewrite Hl. subst c.
    induction s as [|a s IHs].
    + rewrite !like_match_percent. now rewrite IH.
    + rewrite (like_match_percent (SQLite.fold_case p)), (like_match_percent p).
      now rewrite IH, IHs.
  - rewrite !like_match_char by (rewrite ?lower_percent; exact Hc).
    destruct s as [|a s]; [reflexivity|].
    rewrite IH, lower_underscore. unfold SQLite.char_eq_nocase.
    now rewrite lower_lower.
Qed.

Lemma search_where_fold_case (s1 s2 : string) (r : row) :
  SQLite.fold_case s1 = SQLite.fold_case s2 ->
  search_where s1 r = search_where s2 r.
Proof.
  intros H. unfold search_where.
  assert (E : forall x,
             SQLite.like_match ("%" ++ s1 ++ "%") x
             = SQLite.like_match ("%" ++ s2 ++ "%") x).
  { intros x.
    rewrite <- (like_match_fold_case ("%" ++ s1 ++ "%")).
    rewrite <- (like_match_fold_case ("%" ++ s2 ++ "%")).
    cbn [String.append SQLite.fold_case]. rewrite !fold_case_app.
    now rewrite H. }
  destruct (test_name r) as [a|], (status r) as [b|];
    cbn [SQLite.like]; now rewrite ?E.
Qed.

(** X7.  The search does not see the case of ASCII letters of the search
    text either: two searches that differ in nothing but that case give
    the same history. *)
Theorem search_ignores_case_of_search {df : SQLite.DateFunctions}
  (limit : option Z) (s1 s2 : string) (w : world) :
  SQLite.fold_case s1 = SQLite.fold_case s2 ->
  get_recent_tests limit (Some s1) w = get_recent_tests limit (Some s2) w.
Proof.
  intros H. rewrite !get_recent_tests_eq.
  destruct s1 as [|c1 s1'], s2 as [|c2 s2']; try discriminate; [reflexivity|].
  do 4 f_equal. apply filter_ext. intros r.
  now rewrite (search_where_fold_case _ _ r H).
Qed.

Lemma search_ignores_case_of_search_witness :
  get_recent_tests (df := Demo.demo_dates) None (Some "Test_FIREFOX")
    Demo.history_world
  = get_recent_tests (df := Demo.demo_dates) None (Some "test_firefox")
      Demo.history_world.
Proof.
  apply (search_ignores_case_of_search (df := Demo.demo_dates)). reflexivity.
Defined.

Lemma like_match_only_percent (p : string) : forall s,
  only_percent p = true -> p <> "" -> SQLite.like_match p s = true.
Proof.
  induction p as [|c p IH]; intros s Hp Hne; [contradiction|].
  cbn [only_percent] in Hp. apply andb_true_iff in Hp. destruct Hp as [Hc Hp].
  apply Ascii.eqb_eq in Hc. subst c. apply like_match_star.
  destruct p as [|c' p'].
  - exists s, "". rewrite append_empty_r. split; reflexivity.
  - exists "", s. split; [reflexivity|]. apply IH; [exact Hp | discriminate].
Qed.

Lemma only_percent_app (a b : string) :
  only_percent a = true -> only_percent b = true ->
  only_percent (a ++ b) = true.
Proof.
  induction a as [|c a IH]; cbn; intros Ha Hb; [exact Hb|].
  apply andb_true_iff in Ha. destruct Ha as [Hc Ha].
  now rewrite Hc, IH.
Qed.

(** X8.  A search made of [%] alone, short enough for a pattern that LIKE
    takes, selects every row that has a name or a status: on a table whose
    rows all have one, the history is the history without a search. *)
Theorem percent_search_selects_all {df : SQLite.DateFunctions}
  (limit : option Z) (search : string) (w : world) :
  only_percent search = true ->
  SQLite.like_pattern_ok ("%" ++ search ++ "%") = true ->
  Forall (fun r => test_name r <> None \/ status r <> None) (rows w) ->
  get_recent_tests limit (Some search) w = get_recent_tests limit None w.
Proof.
  intros Hs Hpattern Hrows. rewrite !get_recent_tests_eq.
  destruct search as [|c search']; [reflexivity|].
  set (search := String c search') in *.
  do 4 f_equal. apply filter_true.
  eapply Forall_impl; [|exact Hrows]. intros r Hr. cbn beta in *.
  assert (E : forall x, SQLite.like_match ("%" ++ search ++ "%") x = true).
  { intros x. apply like_match_only_percent; [|discriminate].
    apply (only_percent_app "%"); [reflexivity|].
    apply only_percent_app; [exact Hs | reflexivity]. }
  unfold search_where.
  destruct (test_name r) as [a|], (status r) as [b|];
    cbn [SQLite.like SQLite.or3 SQLite.holds]; rewrite ?E; try reflexivity.
  destruct Hr as [Hr|Hr]; contradiction.
Qed.

Lemma percent_search_selects_all_witness :
  get_recent_tests (df := Demo.demo_dates) None (Some "%") Demo.history_world
  = get_recent_tests (df := Demo.demo_dates) None None Demo.history_world.
Proof.
  apply (percent_search_selects_all (df := Demo.demo_dates));
    [reflexivity | reflexivity |].
  repeat (constructor; [left; discriminate|]). constructor.
Defined.

(** ** The history: newest first *)







(** ** The KPIs *)

Lemma get_kpis_eq {env : Env} (days : option Z) (w : world) :
  get_kpis days w
  = let w' := mkworld (rows w) (seq w) (S (tick w)) in
    match Datetime.sub_days (clock (tick w))
            (match days with Some n => n | None => 7 end) with
    | None => (Raise overflow_error, w')
    | Some since =>
        let selected :=
          filter (fun r => SQLite.holds
                             (SQLite.ge (execution_date r)
                                (Some (Datetime.strftime since))))
                 (rows w) in
        let durations := non_null (map duration selected) in
        let total := Z.of_nat (List.length selected) in
        let successes :=
          Z.of_nat (List.length
                      (filter (fun r => py_str_eq (status r) "Pass") selected)) in
        (Ret (total,
              (if total =? 0 then 0
               else inject_Z successes / inject_Z total * 100)%Q,
              match durations with
              | [] => 0%Q
              | _ => (Qsum durations
                      / inject_Z (Z.of_nat (List.length durations)))%Q
              end),
         w')
    end.
Proof.
  unfold get_kpis, days_ago, bind, now, get_rows, ret, raise, mean, truediv.
  cbn [tick rows seq]. destruct (Datetime.sub_days _ _) as [since|];
    [|reflexivity].
  cbv zeta. cbn [tick rows seq].
  destruct (non_null _) as [|d durations];
    match goal with
    | |- context [?a =? 0] => destruct (a =? 0)
    end; reflexivity.
Qed.

Lemma Qsum_nonneg (l : list Q) :
  Forall (fun d => (0 <= d)%Q) l -> (0 <= Qsum l)%Q.
Proof.
  induction 1 as [|d l Hd Hl IH]; cbn [Qsum]; [apply Qle_refl|].
  rewrite <- (Qplus_0_l 0). now apply Qplus_le_compat.
Qed.

Lemma non_null_nonneg (l : list row) :
  Forall (fun r => forall d, duration r = Some d -> (0 <= d)%Q) l ->
  Forall (fun d => (0 <= d)%Q) (non_null (map duration l)).
Proof.
  induction 1 as [|r l Hr Hl IH]; cbn; [constructor|].
  destruct (duration r) as [d|] eqn:E; [constructor; auto | exact IH].
Qed.

(** X10.  Whenever [get_kpis] returns, the total is between 0 and the number
    of rows of the table and the rate is between 0 and 100; the average is
    not negative when no row of the table has a negative duration. *)
Theorem kpis_are_bounded {env : Env} (days : option Z) (w w' : world)
  (total : Z) (rate avg : Q) :
  get_kpis days w = (Ret (total, rate, avg), w') ->
  0 <= total <= Z.of_nat (List.length (rows w))
  /\ (0 <= rate)%Q /\ (rate <= 100)%Q
  /\ (Forall (fun r => forall d, duration r = Some d -> (0 <= d)%Q) (rows w) ->
      (0 <= avg)%Q).
Proof.
  rewrite get_kpis_eq. cbv zeta.
  destruct (Datetime.sub_days _ _) as [since|]; [|discriminate].
  set (selected := filter _ (rows w)).
  set (passed := filter (fun r => py_str_eq (status r) "Pass") selected).
  intros H. injection H as Ht Hr Ha _.
  pose proof (filter_length_bound
                (fun r => SQLite.holds
                            (SQLite.ge (execution_date r)
                               (Some (Datetime.strftime since))))
                (rows w)) as Hsel.
  fold selected in Hsel.
  pose proof (filter_length_bound
                (fun r => py_str_eq (status r) "Pass") selected) as Hpass.
  fold passed in Hpass.
  split; [lia|].
  assert (Hrate : (0 <= rate)%Q /\ (rate <= 100)%Q).
  { subst rate total. destruct (Z.eqb_spec (Z.of_nat (List.length selected)) 0).
    - split; [apply Qle_refl | discriminate].
    - assert (Hpos : (0 < inject_Z (Z.of_nat (List.length selected)))%Q)
        by (change 0%Q with (inject_Z 0); rewrite <- Zlt_Qlt; lia).
      assert (H0 : (0 <= inject_Z (Z.of_nat (List.length passed))
                        / inject_Z (Z.of_nat (List.length selected)))%Q).
      { apply Qle_shift_div_l; [exact Hpos|]. rewrite Qmult_0_l.
        change 0%Q with (inject_Z 0). rewrite <- Zle_Qle. lia. }
      assert (H1 : (inject_Z (Z.of_nat (List.length passed))
                    / inject_Z (Z.of_nat (List.length selected)) <= 1)%Q).
      { apply Qle_shift_div_r; [exact Hpos|]. rewrite Qmult_1_l.
        rewrite <- Zle_Qle. lia. }
      split.
      + apply Qmult_le_0_compat; [exact H0 | discriminate].
      + rewrite <- (Qmult_1_l 100) at 2.
        apply Qmult_le_compat_r; [exact H1 | discriminate]. }
  split; [apply Hrate|]. split; [apply Hrate|].
  intros Hdur. subst avg.
  assert (Hsel' : Forall (fun r => forall d, duration r = Some d -> (0 <= d)%Q)
                    selected).
  { rewrite Forall_forall in *. intros r Hr'. apply filter_In in Hr'.
    now apply Hdur. }
  apply non_null_nonneg in Hsel'.
  destruct (non_null (map duration selected)) as [|d durations] eqn:E;
    [apply Qle_refl|].
  apply Qle_shift_div_l.
  - change 0%Q with (inject_Z 0). rewrite <- Zlt_Qlt. cbn [List.length]. lia.
  - rewrite Qmult_0_l. now apply Qsum_nonneg.
Qed.

Lemma kpis_are_bounded_witness :
  exists total rate avg w',
    get_kpis (env := Demo.demo_env) None Demo.history_world
    = (Ret (total, rate, avg), w')
    /\ 0 <= total <= 4 /\ (0 <= rate)%Q /\ (rate <= 100)%Q.
Proof.
  destruct (get_kpis (env := Demo.demo_env) None Demo.history_world)
    as [[[[total rate] avg]|e] w'] eqn:E; [|vm_compute in E; discriminate].
  destruct (kpis_are_bounded (env := Demo.demo_env) None Demo.history_world
              w' total rate avg E) as (Ht & Hr0 & Hr1 & _).
  exists total, rate, avg, w'. repeat split; try assumption; apply Ht.
Defined.

(** ** The retention sweep *)

Lemma string_leb_ltb_trans (a b x : string) :
  String.leb a b = true -> String.leb b x = true -> String.ltb x a = false.
Proof.
  unfold String.leb, String.ltb. intros Hab Hbx.
  pose proof (string_compare_trans3 a b x) as H.
  rewrite (String.compare_antisym x a).
  destruct (String.compare a b), (String.compare b x), (String.compare a x);
    cbn in *; congruence.
Qed.

Lemma filter_absorb {A : Type} (f g : A -> bool) (l : list A) :
  (forall x, f x = true -> g x = true) ->
  filter f (filter g l) = filter f l.
Proof.
  intros H. induction l as [|x l IH]; cbn; [reflexivity|].
  destruct (g x) eqn:Hg; cbn.
  - now rewrite IH.
  - destruct (f x) eqn:Hf; [|exact IH].
    apply H in Hf. congruence.
Qed.

(** X11.  The sweep does not move the KPIs: when the threshold of the sweep
    and the start of the window can be computed, lie in years of four
    digits, and the threshold is not later than the start, the KPIs computed
    right after [delete_old_tests] are the KPIs that the table as it was
    gives at that moment. *)
Theorem sweep_keeps_kpis {env : Env} (Hclock : clock_valid env)
  (sweep_days kpi_days : option Z) (w : world) (threshold since : datetime) :
  Datetime.sub_days (clock (tick w))
    (match sweep_days with Some n => n | None => 10 end) = Some threshold ->
  1000 <= year threshold ->
  Datetime.sub_days (clock (S (tick w)))
    (match kpi_days with Some n => n | None => 7 end) = Some since ->
  1000 <= year since ->
  Datetime.leb threshold since = true ->
  fst (get_kpis kpi_days (snd (delete_old_tests sweep_days w)))
  = fst (get_kpis kpi_days (mkworld (rows w) (seq w) (S (tick w)))).
Proof.
  intros Hth Hyth Hsince Hysince Hle.
  pose proof (sub_days_valid _ _ _ (Hclock (tick w)) Hth Hyth) as Vth.
  pose proof (sub_days_valid _ _ _ (Hclock (S (tick w))) Hsince Hysince) as Vs.
  rewrite <- strftime_leb in Hle by assumption.
  rewrite delete_old_tests_eq, Hth. cbn [snd].
  rewrite !get_kpis_eq. cbn [tick rows seq]. rewrite Hsince.
  cbv zeta. rewrite filter_absorb; [reflexivity|].
  intros r. destruct (execution_date r) as [x|];
    cbn [SQLite.ge SQLite.lt SQLite.holds]; [|discriminate].
  intros Hx.
  assert (Hx' : String.leb (Datetime.strftime since) x = true)
    by (destruct (String.leb _ x); [reflexivity | discriminate]).
  now rewrite (string_leb_ltb_trans _ _ _ Hle Hx').
Qed.

Lemma sweep_keeps_kpis_witness :
  fst (get_kpis (env := Demo.demo_env) None
         (snd (delete_old_tests (env := Demo.demo_env) None Demo.history_world)))
  = fst (get_kpis (env := Demo.demo_env) None (mkworld Demo.history 4 1)).
Proof.
  exact (sweep_keeps_kpis (env := Demo.demo_env) demo_clock_valid None None
           Demo.history_world (mkdt 2024 3 5 12 0 0) (mkdt 2024 3 8 12 0 1)
           eq_refl ltac:(cbn; lia) eq_refl ltac:(cbn; lia) eq_refl).
Defined.

(** X12.  A number of days that leads outside the calendar makes the sweep
    raise [OverflowError] and delete nothing: that is so beyond 999999999
    days and when now minus the days is before year 1 or after year 9999. *)
Theorem sweep_out_of_calendar_raises {env : Env} (days : Z) (w : world) :
  let t := clock (tick w) in
  let o := Datetime.ymd2ord (year t) (month t) (day t) - days in
  999999999 < Z.abs days \/ o <= 0 \/ Datetime.MAXORDINAL < o ->
  delete_old_tests (Some days) w
  = (Raise overflow_error, mkworld (rows w) (seq w) (S (tick w))).
Proof.
  intros t o H. rewrite delete_old_tests_eq. fold t.
  unfold Datetime.sub_days. fold o.
  destruct (Z.ltb_spec 999999999 (Z.abs days)); [reflexivity|].
  destruct (Z.ltb_spec 0 o); cbn [andb]; [|reflexivity].
  destruct (Z.leb_spec o Datetime.MAXORDINAL); [lia | reflexivity].
Qed.

Lemma sweep_out_of_calendar_raises_witness :
  delete_old_tests (env := Demo.demo_env) (Some 800000) Demo.history_world
  = (Raise overflow_error, mkworld Demo.history 4 1).
Proof.
  apply (sweep_out_of_calendar_raises (env := Demo.demo_env) 800000
           Demo.history_world).
  right. left. vm_compute. discriminate.
Defined.

Lemma get_recent_tests_incl {df : SQLite.DateFunctions}
  (limit : option Z) (search : option string) (w : world)
  (result : list row) (w' : world) :
  get_recent_tests limit search w = (Ret result, w') ->
  w' = w /\ forall r, In r result -> In r (rows w).
Proof.
  rewrite get_recent_tests_eq. intros H. injection H as <- <-.
  split; [reflexivity|]. intros r Hr. apply limit_incl in Hr.
  apply (Permutation_in _ (order_by_desc_perm _ _)) in Hr.
  destruct search as [[|c s]|]; try exact Hr.
  apply filter_In in Hr. apply Hr.
Qed.

(** X13.  After the sweep the history shows no row from before the
    threshold, whatever the search and the limit. *)
Theorem swept_rows_are_not_listed {env : Env} {df : SQLite.DateFunctions}
  (Hclock : clock_valid env) (days limit : option Z) (search : option string)
  (w : world) (threshold : datetime) :
  Datetime.sub_days (clock (tick w))
    (match days with Some n => n | None => 10 end) = Some threshold ->
  1000 <= year threshold ->
  exists w1 result,
    delete_old_tests days w = (Ret tt, w1)
    /\ get_recent_tests limit search w1 = (Ret result, w1)
    /\ forall r t, In r result -> stamped r t ->
         Datetime.ltb t threshold = false.
Proof.
  intros Hth Hyear.
  pose proof (sub_days_valid _ _ _ (Hclock (tick w)) Hth Hyear) as Vth.
  rewrite delete_old_tests_eq, Hth.
  eexists _, _. split; [reflexivity|]. split; [apply get_recent_tests_eq|].
  intros r t Hr [Vt Hd].
  assert (Hin : In r (rows (mkworld
                  (filter
                     (fun r => negb (SQLite.holds
                                       (SQLite.lt (execution_date r)
                                          (Some (Datetime.strftime threshold)))))
                     (rows w)) (seq w) (S (tick w))))).
  { eapply get_recent_tests_incl; [apply get_recent_tests_eq | exact Hr]. }
  cbn [rows] in Hin. apply filter_In in Hin. destruct Hin as [_ Hk].
  rewrite Hd in Hk. cbn [SQLite.lt SQLite.holds] in Hk.
  rewrite strftime_ltb in Hk by assumption.
  destruct (Datetime.ltb t threshold); [discriminate | reflexivity].
Qed.

Lemma swept_rows_are_not_listed_witness :
  exists w1 result,
    delete_old_tests (env := Demo.demo_env) None Demo.history_world
    = (Ret tt, w1)
    /\ get_recent_tests (df := Demo.demo_dates) None None w1 = (Ret result, w1)
    /\ map id result = [4; 3; 2].
Proof.
  destruct (swept_rows_are_not_listed (env := Demo.demo_env)
              (df := Demo.demo_dates) demo_clock_valid None None None
              Demo.history_world (mkdt 2024 3 5 12 0 0) eq_refl
              ltac:(cbn; lia))
    as (w1 & result & Hdel & Hget & _).
  exists w1, result. split; [exact Hdel|]. split; [exact Hget|].
  vm_compute in Hdel. injection Hdel as <-.
  vm_compute in Hget. injection Hget as <-. reflexivity.
Defined.

(** ** The daily trend *)

Lemma insert_group_not_nil (k : option string) (l : list (option string)) :
  SQLite.insert_group k l <> [].
Proof.
  destruct l as [|k' l]; cbn; [discriminate|].
  destruct (SQLite.compare_value k k'); discriminate.
Qed.

(** X14.  The daily trend is empty exactly when the table is empty: the
    page draws its trend chart as soon as there is one row. *)
Theorem daily_trend_empty_iff {df : SQLite.DateFunctions} (w : world) :
  exists result,
    daily_trend w = (Ret result, w) /\ (result = [] <-> rows w = []).
Proof.
  rewrite daily_trend_eq. eexists. split; [reflexivity|].
  destruct (rows w) as [|r l]; cbn [map SQLite.groups fold_right].
  - split; reflexivity.
  - split; [|discriminate]. intros H. apply map_eq_nil in H.
    now apply insert_group_not_nil in H.
Qed.

Section TrendSums.
Context {df : SQLite.DateFunctions}.

Let d (r : row) : option string := SQLite.date_fn (execution_date r).

Let tests (r : row) : bool :=
  py_str_eq (status r) "Pass" || py_str_eq (status r) "Fail".

(** The tests that the entry of date [k] counts in the table [l]. *)
Let counted (l : list row) (k : option string) : Z :=
  SQLite.sum_case (fun r => SQLite.eq (status r) (Some "Pass"))
    (filter (fun r => SQLite.value_eqb (d r) k) l)
  + SQLite.sum_case (fun r => SQLite.eq (status r) (Some "Fail"))
      (filter (fun r => SQLite.value_eqb (d r) k) l).

Let sum (f : option string -> Z) (K : list (option string)) : Z :=
  fold_right (fun k acc => f k + acc) 0 K.

Lemma counted_cons (r : row) (l : list row) (k : option string) :
  counted (r :: l) k
  = (if SQLite.value_eqb (d r) k && tests r then 1 else 0) + counted l k.
Proof.
  unfold counted, tests. cbn [filter].
  destruct (SQLite.value_eqb (d r) k); cbn [andb SQLite.sum_case fold_right].
  - fold (SQLite.sum_case (fun r => SQLite.eq (status r) (Some "Pass"))
            (filter (fun r => SQLite.value_eqb (d r) k) l)).
    fold (SQLite.sum_case (fun r => SQLite.eq (status r) (Some "Fail"))
            (filter (fun r => SQLite.value_eqb (d r) k) l)).
    rewrite !holds_eq_status. unfold py_str_eq.
    destruct (status r) as [s|]; cbn [orb]; [|lia].
    destruct (String.eqb s "Pass") eqn:E1, (String.eqb s "Fail") eqn:E2;
      cbn [orb]; try lia.
    apply String.eqb_eq in E1, E2. congruence.
  - lia.
Qed.

Lemma sum_plus (f g : option string -> Z) (K : list (option string)) :
  sum (fun k => f k + g k) K = sum f K + sum g K.
Proof.
  unfold sum. induction K as [|k K IH]; cbn [fold_right]; [reflexivity | lia].
Qed.

Lemma sum_ext (f g : option string -> Z) (K : list (option string)) :
  (forall k, f k = g k) -> sum f K = sum g K.
Proof.
  intros H. unfold sum.
  induction K as [|k K IH]; cbn [fold_right]; [reflexivity|].
  now rewrite H, IH.
Qed.

Lemma value_eqb_refl (x : option string) : SQLite.value_eqb x x = true.
Proof.
  unfold SQLite.value_eqb.
  assert (E : SQLite.compare_value x x = Eq) by now apply compare_value_eq.
  now rewrite E.
Qed.

Lemma sum_indicator (x : option string) (c : Z) (K : list (option string)) :
  StronglySorted (fun a b => SQLite.value_ltb a b = true) K ->
  sum (fun k => if SQLite.value_eqb x k then c else 0) K
  = if existsb (SQLite.value_eqb x) K then c else 0.
Proof.
  unfold sum.
  induction 1 as [|k K HK IH Hk]; cbn [fold_right existsb]; [reflexivity|].
  rewrite IH. destruct (SQLite.value_eqb x k) eqn:E; cbn [orb]; [|lia].
  assert (Hn : existsb (SQLite.value_eqb x) K = false).
  { apply not_true_is_false. intros Hex. apply existsb_exists in Hex.
    destruct Hex as (k' & Hin & Hk').
    rewrite Forall_forall in Hk. specialize (Hk k' Hin).
    unfold SQLite.value_eqb, SQLite.value_ltb in *.
    destruct (SQLite.compare_value x k) eqn:E1; try discriminate.
    destruct (SQLite.compare_value x k') eqn:E2; try discriminate.
    apply compare_value_eq in E1, E2. subst k k'.
    pose proof (compare_value_antisym x x) as Ha.
    destruct (SQLite.compare_value x x); cbn in Ha; congruence. }
  rewrite Hn. lia.
Qed.

Lemma sum_counted (K : list (option string)) (l : list row) :
  StronglySorted (fun a b => SQLite.value_ltb a b = true) K ->
  (forall r, In r l -> In (d r) K) ->
  sum (counted l) K = Z.of_nat (List.length (filter tests l)).
Proof.
  intros HK. induction l as [|r l IH]; intros Hin.
  - cbn [filter List.length]. clear HK Hin. unfold sum.
    induction K as [|k K IHK]; cbn [fold_right]; [reflexivity|].
    rewrite IHK. reflexivity.
  - rewrite (sum_ext _ _ K (counted_cons r l)).
    rewrite (sum_plus
               (fun k => if SQLite.value_eqb (d r) k && tests r then 1 else 0)
               (counted l)).
    rewrite IH by (intros r' Hr'; apply Hin; now right).
    rewrite (sum_ext _ (fun k => if SQLite.value_eqb (d r) k
                                 then (if tests r then 1 else 0) else 0) K)
      by (intros k; destruct (SQLite.value_eqb (d r) k), (tests r); reflexivity).
    rewrite sum_indicator by exact HK.
    assert (Hex : existsb (SQLite.value_eqb (d r)) K = true).
    { apply existsb_exists. exists (d r). split; [apply Hin; now left|].
      apply value_eqb_refl. }
    rewrite Hex. cbn [filter]. destruct (tests r); cbn [List.length]; lia.
Qed.

(** X15.  The daily trend loses no test and counts none twice: the pass and
    fail counts of all its entries add up to the number of rows whose
    status is [Pass] or [Fail], which is every row of a table that the
    orchestrator wrote. *)
Theorem daily_trend_counts_every_test (w : world) :
  exists result,
    daily_trend w = (Ret result, w)
    /\ trend_total result
       = Z.of_nat (List.length
                     (filter (fun r => py_str_eq (status r) "Pass"
                                       || py_str_eq (status r) "Fail")
                             (rows w)))
    /\ (Forall status_ok (rows w) ->
        trend_total result = Z.of_nat (List.length (rows w))).
Proof.
  rewrite daily_trend_eq. eexists. split; [reflexivity|].
  match goal with
  | |- trend_total ?X = ?n /\ _ => assert (E : trend_total X = n)
  end.
  { transitivity (sum (counted (rows w)) (SQLite.groups (map d (rows w)))).
    - unfold sum, trend_total, counted, d.
      match goal with
      | |- context [SQLite.groups ?m] => generalize (SQLite.groups m)
      end.
      intros K.
      induction K as [|k K IH]; cbn [map fold_right]; [reflexivity|].
      rewrite IH. cbn [fst snd]. lia.
    - apply sum_counted; [apply groups_sorted|].
      intros r Hr. apply groups_In. now apply in_map. }
  split; [exact E|]. intros Hok. rewrite E. do 2 f_equal.
  apply filter_true. eapply Forall_impl; [|exact Hok].
  intros r [Hr|Hr]; cbn beta; rewrite Hr; reflexivity.
Qed.

End TrendSums.

Lemma daily_trend_counts_every_test_witness :
  exists result,
    daily_trend (df := Demo.demo_dates) Demo.trend_world
    = (Ret result, Demo.trend_world)
    /\ trend_total result = 4.
Proof.
  destruct (daily_trend_counts_every_test (df := Demo.demo_dates)
              Demo.trend_world) as (result & Hrun & _ & Hall).
  exists result. split; [exact Hrun|]. apply Hall.
  repeat (constructor; [(left; reflexivity) || (right; reflexivity)|]).
  constructor.
Defined.

(** ** The orchestrator: batches, log files, uploads *)

Lemma run_loop_acc {env : Env} (browser : string) (file_paths : list string) :
  forall acc w,
    run_loop browser file_paths acc w
    = match run_loop browser file_paths [] w with
      | (Ret results, w') => (Ret (acc ++ results)%list, w')
      | (Raise e, w') => (Raise e, w')
      end.
Proof.
  induction file_paths as [|p rest IH]; intros acc w.
  - cbn [run_loop ret]. now rewrite app_nil_r.
  - cbn [run_loop]. unfold bind. rewrite run_robot_test_eq.
    rewrite (IH (acc ++ [_])%list). rewrite (IH ([] ++ [_])%list).
    destruct (run_loop browser rest [] _) as [[results|e] w']; [|reflexivity].
    now rewrite <- app_assoc.
Qed.

Lemma run_loop_app {env : Env} (browser : string) (l1 l2 : list string) :
  forall acc w,
    run_loop browser (l1 ++ l2) acc w
    = match run_loop browser l1 acc w with
      | (Ret results, w') => run_loop browser l2 results w'
      | (Raise e, w') => (Raise e, w')
      end.
Proof.
  induction l1 as [|p l1 IH]; intros acc w; [reflexivity|].
  cbn [app run_loop]. unfold bind. rewrite run_robot_test_eq. apply IH.
Qed.

(** X16.  A batch is its parts run one after the other: [run_robot_tests]
    on a list of files put together from two lists returns and stores what
    the call on the first list followed by the call on the second does. *)
Theorem run_robot_tests_in_two_parts {env : Env}
  (l1 l2 : list string) (browser : option string) (w : world) :
  exists r1 w1 r2 w2,
    run_robot_tests l1 browser w = (Ret r1, w1)
    /\ run_robot_tests l2 browser w1 = (Ret r2, w2)
    /\ run_robot_tests (l1 ++ l2) browser w = (Ret (r1 ++ r2)%list, w2).
Proof.
  unfold run_robot_tests.
  set (b := match browser with Some b => b | None => "chrome" end).
  destruct (run_loop_eq b l1 [] w) as (r1 & n1 & H1 & _).
  cbn [app] in H1.
  remember (mkworld (rows w ++ n1) (seq w + Z.of_nat (List.length l1))
              (tick w + 3 * List.length l1)%nat) as w1 eqn:Ew1.
  destruct (run_loop_eq b l2 [] w1) as (r2 & n2 & H2 & _).
  cbn [app] in H2.
  exists r1, w1, r2,
    (mkworld (rows w1 ++ n2) (seq w1 + Z.of_nat (List.length l2))
       (tick w1 + 3 * List.length l2)%nat).
  split; [exact H1|]. split; [exact H2|].
  rewrite run_loop_app, H1, run_loop_acc, H2. reflexivity.
Qed.

Lemma lex_eq (c d : comparison) :
  Datetime.lex c d = Eq -> c = Eq /\ d = Eq.
Proof. destruct c; cbn; intros H; try discriminate. now split. Qed.

Lemma lex_assoc (a b c : comparison) :
  Datetime.lex (Datetime.lex a b) c = Datetime.lex a (Datetime.lex b c).
Proof. destruct a; reflexivity. Qed.

Lemma datetime_compare_eq (a b : datetime) :
  Datetime.compare a b = Eq -> a = b.
Proof.
  unfold Datetime.compare. intros H.
  repeat (apply lex_eq in H; destruct H as [?H H]).
  repeat match goal with
         | E : (_ ?= _) = Eq |- _ => apply Z.compare_eq in E
         end.
  destruct a, b; cbn in *; congruence.
Qed.

Lemma string_compare_refl (s : string) : String.compare s s = Eq.
Proof.
  pose proof (String.compare_antisym s s) as H.
  destruct (String.compare s s); cbn in H; congruence.
Qed.

Lemma strftime_file_compare (a b : datetime) (r1 r2 : string) :
  Datetime.valid a = true -> Datetime.valid b = true ->
  String.compare (Datetime.strftime_file a ++ r1)
                 (Datetime.strftime_file b ++ r2)
  = Datetime.lex (Datetime.compare a b) (String.compare r1 r2).
Proof.
  intros Ha Hb.
  apply valid_fields in Ha. apply valid_fields in Hb.
  unfold Datetime.strftime_file, Datetime.strftime_date, Datetime.compare.
  rewrite !year_text_valid by lia.
  rewrite !append_assoc.
  repeat (rewrite compare_pad by (simpl; lia);
          try (cbn [String.append]; rewrite compare_sep)).
  now rewrite !lex_assoc.
Qed.

Lemma append_inv_head (a x y : string) : a ++ x = a ++ y -> x = y.
Proof.
  induction a as [|c a IH]; cbn; intros H; [exact H|].
  injection H as H. now apply IH.
Qed.

Lemma startswith_sep_prefix (root x y : string) :
  Py.startswith_sep (root ++ "_" ++ x) = Py.startswith_sep (root ++ "_" ++ y).
Proof. destruct root; reflexivity. Qed.

Lemma path_join_logs (x : string) :
  Py.path_join LOG_DIR x = if Py.startswith_sep x then x else "logs/" ++ x.
Proof. reflexivity. Qed.

(** X17.  The log file of a test is its own from one second to the next:
    for one test name, two turns of the loop write to the same log file
    exactly when they start within the same second. *)
Theorem log_path_per_second (name : string) (t1 t2 : datetime) :
  Datetime.valid t1 = true -> Datetime.valid t2 = true ->
  (log_path name t1 = log_path name t2 <-> t1 = t2).
Proof.
  intros V1 V2. split; [|now intros ->].
  unfold log_path. rewrite !path_join_logs.
  rewrite (startswith_sep_prefix _ _ (Datetime.strftime_file t2 ++ ".html")).
  intros H.
  assert (E : Py.splitext_root name ++ "_" ++ Datetime.strftime_file t1 ++ ".html"
              = Py.splitext_root name ++ "_" ++ Datetime.strftime_file t2 ++ ".html").
  { destruct (Py.startswith_sep _); [exact H|].
    now apply (append_inv_head "logs/") in H. }
  apply append_inv_head in E. apply (append_inv_head "_") in E.
  pose proof (strftime_file_compare t1 t2 ".html" ".html" V1 V2) as C.
  rewrite E, string_compare_refl in C. symmetry in C.
  apply lex_eq in C. now apply datetime_compare_eq.
Qed.

Lemma log_path_per_second_witness :
  log_path "login.robot" (mkdt 2024 3 15 12 0 0)
  <> log_path "login.robot" (mkdt 2024 3 15 12 0 1).
Proof.
  intros H.
  apply (log_path_per_second "login.robot" (mkdt 2024 3 15 12 0 0)
           (mkdt 2024 3 15 12 0 1) eq_refl eq_refl) in H.
  discriminate H.
Defined.










